(** * Channel following: the follow-relationship orchestrator

    A shallow embedding of
    [packages/backend/src/core/ChannelFollowingService.ts] (class
    [UserFollowingService]) and of [ChannelService.isFolloing]
    ([packages/backend/src/core/ChannelService.ts]), with the entities they
    read and write.

    Tables are lists of rows, in insertion order.  Asynchronous methods are
    run to completion one after the other; a thrown error (a rejected
    promise) ends the method and keeps the writes made so far, since no
    method opens a transaction.  Dates and log lines are left out. *)

From Stdlib Require Import String List ZArith Bool Lia.
From Stdlib Require Import DecimalString.
Import ListNotations.
Local Open Scope string_scope.
Local Open Scope list_scope.

(** ** Entities *)

Definition Id := string.

(** JavaScript truthiness of a [string | null] value: [null] and the empty
    string are falsy. *)
Definition truthy (v : option string) : bool :=
  match v with
  | Some s => negb (String.eqb s "")
  | None => false
  end.

Definition isSome {A : Type} (o : option A) : bool :=
  match o with Some _ => true | None => false end.

Module User.
(** Modelled from the spec: the [User] entity ([models/entities/User.ts])
    is imported by the service and is not part of the sources at hand; the
    fields are those of the spec's Actor that the service reads. *)
Record t := mk {
  id : Id;
  host : option string;
  uri : option string;
  inbox : option string;
  sharedInbox : option string;
  movedToUri : option string;
  isLocked : bool;
  isBot : bool;
  followingCount : Z;
  followersCount : Z
}.

Definition set_followingCount (n : Z) (u : t) : t :=
  mk (id u) (host u) (uri u) (inbox u) (sharedInbox u) (movedToUri u)
     (isLocked u) (isBot u) n (followersCount u).

Definition set_followersCount (n : Z) (u : t) : t :=
  mk (id u) (host u) (uri u) (inbox u) (sharedInbox u) (movedToUri u)
     (isLocked u) (isBot u) (followingCount u) n.
End User.

Module UserProfile.
(** Modelled from the spec: the [UserProfile] entity is not part of the
    sources at hand; these are the two profile flags of the spec's Actor. *)
Record t := mk {
  userId : Id;
  carefulBot : bool;
  autoAcceptFollowed : bool
}.
End UserProfile.

Module Channel.
(** Modelled from the spec: the [Channel] entity
    ([models/entities/Channel.ts]) is not part of the sources at hand.  The
    service reads [id] and the owner relation [user]; [isPublic] is the
    column added by the migration.  [user] is a relation: it is present on
    an entity object only when the query asked for it. *)
Record t := mk {
  id : Id;
  userId : option Id;
  user : option User.t;
  isPublic : bool
}.

(** The entity object a query without [relations] returns. *)
Definition unloaded (c : t) : t := mk (id c) (userId c) None (isPublic c).
End Channel.

Module Following.
(** Modelled from the spec: the [Following] entity (the rows of
    [followingsRepository]) is not part of the sources at hand. *)
Record t := mk {
  id : Id;
  followerId : Id;
  followeeId : Id
}.
End Following.

Module ChannelFollowRequest.
(** [models/entities/ChannelFollowRequest.ts]: columns [id], [channelId],
    [followerId], [requestId].  The entity declares no [followee] and no
    [followeeId] property. *)
Record t := mk {
  id : Id;
  channelId : Id;
  followerId : Id;
  requestId : option string
}.

(** [following.followee] on an object of this entity reads a property the
    entity does not have: the value is [undefined]. *)
Definition followee (r : t) : option User.t := None.

(** The relations of the entity: its two [@ManyToOne] properties.
    [channelId] and [followerId] are columns. *)
Definition relations : list string := ["channel"; "follower"].
End ChannelFollowRequest.

Module FollowRequest.
(** Modelled from the spec: the [FollowRequest] entity, the row type the
    calls on [this.followRequestsRepository] are written for. *)
Record t := mk {
  id : Id;
  followerId : Id;
  followeeId : Id;
  requestId : option string
}.
End FollowRequest.

Module Webhook.
Record t := mk {
  userId : Id;
  on : list string
}.
End Webhook.

(** ** Collaborators' payloads *)

(** The activities [ApRendererService] renders, as terms. *)
Inductive Activity : Type :=
| renderFollow (follower followee : Id) (requestId : option string)
| renderAccept (object : Activity) (actor : Id)
| renderReject (object : Activity) (actor : Id)
| renderUndo (object : Activity) (actor : Id).

Inductive Content : Type :=
| addContext (a : Activity).

(** [userEntityService.pack(target, me, { detail })]. *)
Record Packed := mkPacked {
  packedTarget : Id;
  packedMe : Id;
  packedDetail : bool
}.

(** A job of [queueService.deliver(user, content, to, isSharedInbox)]. *)
Record DeliverJob := mkDeliverJob {
  jobUser : Id;
  jobContent : Content;
  jobTo : option string;
  jobIsSharedInbox : bool
}.

Inductive CounterColumn := FollowingCount | FollowersCount.

(** Fire-and-forget calls on the event, notification, webhook, cache and
    chart services, recorded in the order they are made. *)
Inductive Effect : Type :=
| publishInternalEvent (name : string) (followerId followeeId : Id)
| publishMainStream (userId : Id) (name : string) (payload : Packed)
| createNotification (notifieeId : Id) (kind : string) (notifierId : Id)
| webhookDeliver (webhook : Webhook.t) (name : string) (payload : Packed)
| userFollowingsCacheRefresh (userId : Id)
| instanceDecrement (host : option string) (column : CounterColumn)
| perUserFollowingChartUpdate (followerId followeeId : Id) (isFollow : bool).

(** ** The state the service works on *)

Record State := mkState {
  usersRepository : list User.t;
  userProfilesRepository : list UserProfile.t;
  followingsRepository : list Following.t;
  channelFollowRequestsRepository : list ChannelFollowRequest.t;
  channelRepository : list Channel.t;
  (** the rows behind [UserBlockingService]: (blocker, blockee) *)
  blockings : list (Id * Id);
  activeWebhooks : list Webhook.t;
  (** [IdService]: the number of ids generated so far *)
  generatedIds : nat;
  (** [QueueService]: the deliver queue, oldest job first *)
  deliverQueue : list DeliverJob;
  effects : list Effect
}.

Definition set_users (f : list User.t -> list User.t) (s : State) : State :=
  mkState (f (usersRepository s)) (userProfilesRepository s)
    (followingsRepository s) (channelFollowRequestsRepository s)
    (channelRepository s) (blockings s) (activeWebhooks s) (generatedIds s)
    (deliverQueue s) (effects s).

Definition set_followings (f : list Following.t -> list Following.t)
    (s : State) : State :=
  mkState (usersRepository s) (userProfilesRepository s)
    (f (followingsRepository s)) (channelFollowRequestsRepository s)
    (channelRepository s) (blockings s) (activeWebhooks s) (generatedIds s)
    (deliverQueue s) (effects s).

Definition set_channelFollowRequests
    (f : list ChannelFollowRequest.t -> list ChannelFollowRequest.t)
    (s : State) : State :=
  mkState (usersRepository s) (userProfilesRepository s)
    (followingsRepository s) (f (channelFollowRequestsRepository s))
    (channelRepository s) (blockings s) (activeWebhooks s) (generatedIds s)
    (deliverQueue s) (effects s).

Definition set_blockings (f : list (Id * Id) -> list (Id * Id))
    (s : State) : State :=
  mkState (usersRepository s) (userProfilesRepository s)
    (followingsRepository s) (channelFollowRequestsRepository s)
    (channelRepository s) (f (blockings s)) (activeWebhooks s)
    (generatedIds s) (deliverQueue s) (effects s).

Definition set_generatedIds (f : nat -> nat) (s : State) : State :=
  mkState (usersRepository s) (userProfilesRepository s)
    (followingsRepository s) (channelFollowRequestsRepository s)
    (channelRepository s) (blockings s) (activeWebhooks s)
    (f (generatedIds s)) (deliverQueue s) (effects s).

Definition set_deliverQueue (f : list DeliverJob -> list DeliverJob)
    (s : State) : State :=
  mkState (usersRepository s) (userProfilesRepository s)
    (followingsRepository s) (channelFollowRequestsRepository s)
    (channelRepository s) (blockings s) (activeWebhooks s) (generatedIds s)
    (f (deliverQueue s)) (effects s).

Definition set_effects (f : list Effect -> list Effect) (s : State) : State :=
  mkState (usersRepository s) (userProfilesRepository s)
    (followingsRepository s) (channelFollowRequestsRepository s)
    (channelRepository s) (blockings s) (activeWebhooks s) (generatedIds s)
    (deliverQueue s) (f (effects s)).

(** ** Errors and the monad of the service's methods *)

Inductive Error : Type :=
(** [findOneByOrFail] found no row *)
| EntityNotFoundError (entity : string)
(** a key of [relations] names no relation of the entity *)
| EntityPropertyNotFoundError (property : string)
(** the insert violates a primary key or a unique index *)
| DuplicateKeyValueError
(** an identifier that no scope binds was read *)
| ReferenceError (name : string)
(** a property of [undefined] was read; [prop] is the property *)
| TypeError (prop : string)
| IdentifiableError (id message : string)
(** [new Error(message)] *)
| PlainError (message : string).

Inductive Result (A : Type) : Type :=
| Ok (a : A)
| Throw (e : Error).
Arguments Ok {A} a.
Arguments Throw {A} e.

Definition M (A : Type) : Type := State -> Result A * State.

Definition ret {A : Type} (a : A) : M A := fun s => (Ok a, s).

Definition bind {A B : Type} (m : M A) (k : A -> M B) : M B :=
  fun s =>
    match m s with
    | (Ok a, s') => k a s'
    | (Throw e, s') => (Throw e, s')
    end.

Definition throw {A : Type} (e : Error) : M A := fun s => (Throw e, s).

(** [promise.catch(handler)] *)
Definition catch {A : Type} (m : M A) (handler : Error -> M A) : M A :=
  fun s =>
    match m s with
    | (Ok a, s') => (Ok a, s')
    | (Throw e, s') => handler e s'
    end.

(** A call to an async method whose promise is neither awaited nor
    returned: the callee runs, the caller never sees its error. *)
Definition detached (m : M unit) : M unit :=
  fun s => (Ok tt, snd (m s)).

(** [Promise.all([p, q])] of two promises that can reject: both are
    started, so both run.  The pair of values when both resolve; the
    rejection when one rejects; when both reject, the rejection that settles
    first, which the source does not determine and [leftFirst] decides.
    Where neither promise of a [Promise.all] can reject, the two are bound
    one after the other. *)
Definition promiseAllPair {A B : Type} (leftFirst : State -> bool)
    (p : M A) (q : M B) : M (A * B) :=
  fun s =>
    match p s with
    | (Ok a, s1) =>
      match q s1 with
      | (Ok b, s2) => (Ok (a, b), s2)
      | (Throw e, s2) => (Throw e, s2)
      end
    | (Throw e1, s1) =>
      match q s1 with
      | (Ok _, s2) => (Throw e1, s2)
      | (Throw e2, s2) => (Throw (if leftFirst s then e1 else e2), s2)
      end
    end.

Definition gets {A : Type} (f : State -> A) : M A := fun s => (Ok (f s), s).
Definition modify (f : State -> State) : M unit := fun s => (Ok tt, f s).

Declare Scope service_scope.
Delimit Scope service_scope with service.
Notation "x <- c1 ;; c2" := (bind c1 (fun x => c2))
  (at level 100, c1 at next level, right associativity) : service_scope.
Notation "c1 ;; c2" := (bind c1 (fun _ => c2))
  (at level 100, right associativity) : service_scope.
Local Open Scope service_scope.

Fixpoint forEach {A : Type} (l : list A) (body : A -> M unit) : M unit :=
  match l with
  | [] => ret tt
  | x :: rest => body x ;; forEach rest body
  end.

(** Reading an identifier that is bound neither in the method nor at module
    level nor as a global. *)
Definition unbound {A : Type} (name : string) : M A :=
  throw (ReferenceError name).

(** The class has the fields its constructor parameters declare
    ([usersRepository], [userProfilesRepository], [followingsRepository],
    [channelFollowRequestsRepository], [channelRepository],
    [instancesRepository] and the services) and [userBlockingService].  It has
    no [followRequestsRepository]: [this.followRequestsRepository] is
    [undefined], and reading a method off it throws. *)
Definition this_followRequestsRepository {A : Type} (method : string) : M A :=
  throw (TypeError method).


(** ** Repositories

    The repository methods the service calls, as operations on the tables.
    [findOneBy] answers the first matching row.  [findOne] on the request
    table checks the keys of its [relations] option against the relations
    of the entity before it queries.  The entity metadata itself (an index
    column that names no property of the entity) is not checked. *)

Definition orFail {A : Type} (entity : string) (m : M (option A)) : M A :=
  o <- m ;;
  match o with
  | Some a => ret a
  | None => throw (EntityNotFoundError entity)
  end.

(** [usersRepository.findOneBy({ id })] *)
Definition usersRepository_findOneBy (i : Id) : M (option User.t) :=
  gets (fun s => find (fun u => String.eqb (User.id u) i) (usersRepository s)).

(** [channelRepository.findOneBy({ id })]; no relation is asked for. *)
Definition channelRepository_findOneBy (i : Id) : M (option Channel.t) :=
  gets (fun s =>
    option_map Channel.unloaded
      (find (fun c => String.eqb (Channel.id c) i) (channelRepository s))).

(** [userProfilesRepository.findOneBy({ userId })] *)
Definition userProfilesRepository_findOneBy (i : Id)
    : M (option UserProfile.t) :=
  gets (fun s =>
    find (fun p => String.eqb (UserProfile.userId p) i)
      (userProfilesRepository s)).

Definition decrementColumn (c : CounterColumn) (n : Z) (u : User.t) : User.t :=
  match c with
  | FollowingCount => User.set_followingCount (User.followingCount u - n)%Z u
  | FollowersCount => User.set_followersCount (User.followersCount u - n)%Z u
  end.

Definition updateWhereId (i : Id) (f : User.t -> User.t)
    (rows : list User.t) : list User.t :=
  map (fun u => if String.eqb (User.id u) i then f u else u) rows.

(** [usersRepository.decrement({ id }, column, n)] *)
Definition usersRepository_decrement (i : Id) (c : CounterColumn) (n : Z)
    : M unit :=
  modify (set_users (updateWhereId i (decrementColumn c n))).

(** [usersRepository.update({ id }, { followingCount, followersCount })] *)
Definition usersRepository_update (i : Id) (followingCount followersCount : Z)
    : M unit :=
  modify (set_users (updateWhereId i (fun u =>
    User.set_followersCount followersCount
      (User.set_followingCount followingCount u)))).

Definition matchesFollowing (followerId followeeId : Id) (f : Following.t)
    : bool :=
  String.eqb (Following.followerId f) followerId
  && String.eqb (Following.followeeId f) followeeId.

(** [followingsRepository.findOneBy({ followerId, followeeId })] *)
Definition followingsRepository_findOneBy (followerId followeeId : Id)
    : M (option Following.t) :=
  gets (fun s =>
    find (matchesFollowing followerId followeeId) (followingsRepository s)).

(** [followingsRepository.exist({ where: { followeeId, followerId } })] *)
Definition followingsRepository_exist (s : State) (followeeId followerId : Id)
    : bool :=
  existsb (matchesFollowing followerId followeeId) (followingsRepository s).

(** [followingsRepository.delete(id)] *)
Definition followingsRepository_delete (i : Id) : M unit :=
  modify (set_followings
    (filter (fun f => negb (String.eqb (Following.id f) i)))).

(** The [movedToUri] column of the user row joined to a following row.  The
    foreign keys cascade, so the joined row exists; were it missing, the
    joined column would read as NULL. *)
Definition joinedMovedToUri (users : list User.t) (i : Id) : option string :=
  match find (fun u => String.eqb (User.id u) i) users with
  | Some u => User.movedToUri u
  | None => None
  end.

(** SQL [IS NULL] *)
Definition IsNull (v : option string) : bool := negb (isSome v).

(** [followingsRepository.count({ relations: { followee: true },
      where: { followerId, followee: { movedToUri: IsNull() } } })] *)
Definition countNonMovedFollowees (i : Id) : M Z :=
  gets (fun s =>
    Z.of_nat (length (filter (fun f =>
      String.eqb (Following.followerId f) i
      && IsNull (joinedMovedToUri (usersRepository s) (Following.followeeId f)))
      (followingsRepository s)))).

(** [followingsRepository.count({ relations: { follower: true },
      where: { followeeId, follower: { movedToUri: IsNull() } } })] *)
Definition countNonMovedFollowers (i : Id) : M Z :=
  gets (fun s =>
    Z.of_nat (length (filter (fun f =>
      String.eqb (Following.followeeId f) i
      && IsNull (joinedMovedToUri (usersRepository s) (Following.followerId f)))
      (followingsRepository s)))).

Definition matchesRequest (channelId followerId : Id)
    (r : ChannelFollowRequest.t) : bool :=
  String.eqb (ChannelFollowRequest.channelId r) channelId
  && String.eqb (ChannelFollowRequest.followerId r) followerId.

(** The unique index of [ChannelFollowRequest] is declared on
    [channelId, followeeId]; the entity has no [followeeId] column, its
    second reference column is [followerId].  The index is read as the one on
    the pair of the two reference columns. *)
Definition violatesUnique (r : ChannelFollowRequest.t)
    (rows : list ChannelFollowRequest.t) : bool :=
  existsb (fun r' =>
    String.eqb (ChannelFollowRequest.id r') (ChannelFollowRequest.id r)
    || matchesRequest (ChannelFollowRequest.channelId r)
         (ChannelFollowRequest.followerId r) r') rows.

(** [channelFollowRequestsRepository.insert(row)] *)
Definition channelFollowRequestsRepository_insert (r : ChannelFollowRequest.t)
    : M unit :=
  rows <- gets channelFollowRequestsRepository ;;
  if violatesUnique r rows then throw DuplicateKeyValueError
  else modify (set_channelFollowRequests (fun rows => rows ++ [r])).

(** [channelFollowRequestsRepository.findOneBy({ channelId, followerId })],
    and [findOne] with the same [where]. *)
Definition channelFollowRequestsRepository_findOneBy (channelId followerId : Id)
    : M (option ChannelFollowRequest.t) :=
  gets (fun s =>
    find (matchesRequest channelId followerId)
      (channelFollowRequestsRepository s)).

(** [channelFollowRequestsRepository.findOne({ relations, where:
      { followerId, channelId } })]: a key of [relations] that is not a
    relation of the entity makes the call reject with
    EntityPropertyNotFoundError before any query is made. *)
Definition channelFollowRequestsRepository_findOne (relations : list string)
    (channelId followerId : Id) : M (option ChannelFollowRequest.t) :=
  match find (fun key =>
                negb (existsb (String.eqb key) ChannelFollowRequest.relations))
          relations with
  | Some key => throw (EntityPropertyNotFoundError key)
  | None => channelFollowRequestsRepository_findOneBy channelId followerId
  end.

(** [channelFollowRequestsRepository.delete({ channelId, followerId })] *)
Definition channelFollowRequestsRepository_delete (channelId followerId : Id)
    : M unit :=
  modify (set_channelFollowRequests
    (filter (fun r => negb (matchesRequest channelId followerId r)))).

(** ** Collaborating services *)

(** Modelled from the spec: [UserEntityService.isRemoteUser] and
    [isLocalUser] are not part of the sources at hand; host null is local,
    host non-null is remote. *)
Definition isRemoteUser (u : User.t) : bool := isSome (User.host u).
Definition isLocalUser (u : User.t) : bool := negb (isSome (User.host u)).

Definition pairEqb (p q : Id * Id) : bool :=
  String.eqb (fst p) (fst q) && String.eqb (snd p) (snd q).

(** Modelled from the spec: [UserBlockingService.checkBlocked] is not part
    of the sources at hand; the Blocking Oracle's
    [isBlocked(blockerActorId, blockedActorId)]. *)
Definition checkBlocked (blockerId blockeeId : Id) : M bool :=
  gets (fun s => existsb (pairEqb (blockerId, blockeeId)) (blockings s)).

(** Modelled from the spec: [UserBlockingService.unblock] is not part of the
    sources at hand; the block of [blockee] by [blocker] is removed. *)
Definition unblock (blockerId blockeeId : Id) : M unit :=
  modify (set_blockings
    (filter (fun p => negb (pairEqb (blockerId, blockeeId) p)))).

(** Modelled from the spec: [IdService.genId] is not part of the sources at
    hand; an opaque identifier, a new one at each call. *)
Definition genId : M Id :=
  n <- gets generatedIds ;;
  modify (set_generatedIds S) ;;
  ret (NilEmpty.string_of_uint (Nat.to_uint n)).

(** [queueService.deliver(user, content, to, isSharedInbox)] *)
Definition deliver (user : Id) (content : Content) (to : option string)
    (isSharedInbox : bool) : M unit :=
  modify (set_deliverQueue (fun q =>
    q ++ [mkDeliverJob user content to isSharedInbox])).

Definition emit (e : Effect) : M unit :=
  modify (set_effects (fun l => l ++ [e])).

(** [isDuplicateKeyValueError(err)] *)
Definition isDuplicateKeyValueError (e : Error) : bool :=
  match e with
  | DuplicateKeyValueError => true
  | _ => false
  end.

(** A user-like object handed over where a [Channel] is expected (parameter
    types do not exist at run time): it has its [id] and no [user]
    property. *)
Definition asChannel (u : User.t) : Channel.t :=
  Channel.mk (User.id u) None None false.

(** [(await this.webhookService.getActiveWebhooks()).filter(x =>
      x.userId === userId && x.on.includes(name))], each one handed to
    [queueService.webhookDeliver]. *)
Definition deliverWebhooks (userId : Id) (name : string) (payload : Packed)
    : M unit :=
  hooks <- gets activeWebhooks ;;
  forEach
    (filter (fun x =>
       String.eqb (Webhook.userId x) userId
       && existsb (String.eqb name) (Webhook.on x)) hooks)
    (fun webhook => emit (webhookDeliver webhook name payload)).

(** ** The service: [UserFollowingService] *)

Section UserFollowingService.

(** [AccountMoveService.validateAlsoKnownAs(dst, check, instant)] is not part
    of the sources at hand; it is a parameter of the development.  It
    receives the state it may read. *)
Variable validateAlsoKnownAs :
  State -> User.t -> (User.t -> User.t -> bool) -> bool -> option User.t.

(** Which of the two lookups of [follow] (lines 88-91) settles first when
    both reject: the user's when [true].  Nothing in the source decides it;
    it is a parameter of the development. *)
Variable userLookupSettlesFirst : State -> bool.

(** [decrementFollowing(follower, followee)], lines 316-385. *)
Definition decrementFollowing (follower followee : User.t) : M unit :=
  emit (publishInternalEvent "unfollow" (User.id follower) (User.id followee)) ;;
  if negb (truthy (User.movedToUri follower))
     && negb (truthy (User.movedToUri followee))
  then
    usersRepository_decrement (User.id follower) FollowingCount 1 ;;
    usersRepository_decrement (User.id followee) FollowersCount 1 ;;
    (if isRemoteUser follower && isLocalUser followee then
       emit (instanceDecrement (User.host follower) FollowingCount)
     else if isLocalUser follower && isRemoteUser followee then
       emit (instanceDecrement (User.host followee) FollowersCount)
     else ret tt) ;;
    emit (perUserFollowingChartUpdate (User.id follower) (User.id followee)
            false)
  else
    forEach [follower; followee] (fun user =>
      if truthy (User.movedToUri user) then ret tt
      else
        nonMovedFollowees <- countNonMovedFollowees (User.id user) ;;
        nonMovedFollowers <- countNonMovedFollowers (User.id user) ;;
        usersRepository_update (User.id user)
          nonMovedFollowees nonMovedFollowers).

(** [publishUnfollow(followee, follower)], lines 605-618; of [followee] only
    the [id] is read. *)
Definition publishUnfollow (followeeId : Id) (follower : User.t) : M unit :=
  let packedFollowee := mkPacked followeeId (User.id follower) true in
  emit (publishMainStream (User.id follower) "unfollow" packedFollowee) ;;
  deliverWebhooks (User.id follower) "unfollow" packedFollowee.

(** [insertFollowingDoc(channel, follower, silent)], lines 170-255.  The
    method binds [channel] and [follower]; line 214 reads [followee]. *)
Definition insertFollowingDoc (channel : Channel.t) (follower : User.t)
    (silent : bool) : M unit :=
  channel_user <-
    match Channel.user channel with
    | Some u => ret u
    | None => throw (TypeError "id")
    end ;;
  if String.eqb (User.id follower) (User.id channel_user) then ret tt
  else
    newId <- genId ;;
    alreadyFollowed <-
      catch
        (channelFollowRequestsRepository_insert
           (ChannelFollowRequest.mk newId (Channel.id channel)
              (User.id follower) None) ;;
         ret false)
        (fun err =>
           if isDuplicateKeyValueError err && isRemoteUser follower
           then ret true
           else throw err) ;;
    req <- channelFollowRequestsRepository_findOneBy
             (Channel.id channel) (User.id follower) ;;
    (if isSome req then
       channelFollowRequestsRepository_delete
         (Channel.id channel) (User.id follower)
     else ret tt) ;;
    if (alreadyFollowed : bool) then ret tt
    else
      followee <- unbound "followee" ;;
      emit (publishInternalEvent "follow" (User.id follower)
              (User.id followee)) ;;
      followeeUser <- orFail "User"
                        (usersRepository_findOneBy (User.id followee)) ;;
      followerUser <- orFail "User"
                        (usersRepository_findOneBy (User.id follower)) ;;
      ret tt.

(** [createFollowRequest(follower, followee, requestId)], lines 388-443. *)
Definition createFollowRequest (follower followee : User.t)
    (requestId : option string) : M unit :=
  if String.eqb (User.id follower) (User.id followee) then ret tt
  else
    blocking <- checkBlocked (User.id follower) (User.id followee) ;;
    blocked <- checkBlocked (User.id followee) (User.id follower) ;;
    if (blocking : bool) then throw (PlainError "blocking")
    else if (blocked : bool) then throw (PlainError "blocked")
    else
      followRequest <- @this_followRequestsRepository FollowRequest.t
                         "insert" ;;
      (if isLocalUser followee then
         emit (publishMainStream (User.id followee) "receiveFollowRequest"
                 (mkPacked (User.id follower) (User.id followee) false)) ;;
         emit (publishMainStream (User.id followee) "meUpdated"
                 (mkPacked (User.id followee) (User.id followee) true)) ;;
         emit (createNotification (User.id followee) "receiveFollowRequest"
                 (User.id follower))
       else ret tt) ;;
      if isLocalUser follower && isRemoteUser followee then
        deliver (User.id follower)
          (addContext (renderFollow (User.id follower) (User.id followee)
             (match requestId with
              | Some r => Some r
              | None => Some (String.append "/follows/"
                                (FollowRequest.id followRequest))
              end)))
          (User.inbox followee) false
      else ret tt.

(** [follow(_follower, _channel, requestId, silent)], lines 87-167.  The
    method binds [_follower], [_channel], [follower], [channel], [blocking]
    and [blocked]; lines 101 and 113 onwards read [followee]. *)
Definition follow (_follower _channel : Id) (requestId : option string)
    (silent : bool) : M unit :=
  found <- promiseAllPair userLookupSettlesFirst
             (orFail "User" (usersRepository_findOneBy _follower))
             (orFail "Channel" (channelRepository_findOneBy _channel)) ;;
  let follower := fst found in
  let channel := snd found in
  blocking <- checkBlocked (User.id follower) (Channel.id channel) ;;
  blocked <- checkBlocked (Channel.id channel) (User.id follower) ;;
  if isRemoteUser follower && blocked then
    followee <- @unbound User.t "followee" ;;
    deliver (Channel.id channel)
      (addContext
         (renderReject
            (renderFollow (User.id follower) (User.id followee) requestId)
            (User.id followee)))
      (User.inbox follower) false
  else
    (if isRemoteUser follower && blocking then
       unblock (User.id follower) (Channel.id channel)
     else if (blocking : bool) then
       throw (IdentifiableError "710e8fb0-b8c3-4922-be49-d5d93d8e6a6e"
                "blocking")
     else if (blocked : bool) then
       throw (IdentifiableError "3338392a-f764-498d-8855-db939dcf8c48"
                "blocked")
     else ret tt) ;;
    followee <- @unbound User.t "followee" ;;
    followeeProfile <- orFail "UserProfile"
                         (userProfilesRepository_findOneBy
                            (User.id followee)) ;;
    proceed <-
      (if User.isLocked followee
          || (UserProfile.carefulBot followeeProfile && User.isBot follower)
          || (isLocalUser follower && isRemoteUser followee)
       then
         following <- followingsRepository_findOneBy
                        (User.id follower) (User.id followee) ;;
         let autoAccept := isSome following in
         autoAccept <-
           (if negb autoAccept
               && (isLocalUser followee
                   && UserProfile.autoAcceptFollowed followeeProfile)
            then
              followed <- followingsRepository_findOneBy
                            (User.id followee) (User.id follower) ;;
              ret (if isSome followed then true else autoAccept)
            else ret autoAccept) ;;
         autoAccept <-
           (if User.isLocked followee && negb autoAccept then
              gets (fun s =>
                isSome (validateAlsoKnownAs s follower
                  (fun oldSrc newSrc =>
                     followingsRepository_exist s
                       (User.id followee) (User.id newSrc))
                  true))
            else ret autoAccept) ;;
         if negb autoAccept then
           createFollowRequest follower followee requestId ;;
           ret false
         else ret true
       else ret true) ;;
    if (proceed : bool) then
      insertFollowingDoc (asChannel followee) follower silent ;;
      if isRemoteUser follower && isLocalUser followee then
        deliver (User.id followee)
          (addContext
             (renderAccept
                (renderFollow (User.id follower) (User.id followee) requestId)
                (User.id followee)))
          (User.inbox follower) false
      else ret tt
    else ret tt.

(** [unfollow(channel, followee, silent)], lines 258-313.  The method binds
    [channel], [followee], [silent] and [following]; [following] is a row of
    [channelFollowRequestsRepository] looked up with
    [relations: { follower: true, channelId: true }],
    [followerId: channel.id] and [channelId: followee.id].  Lines 283
    onwards read [follower]. *)
Definition unfollow (channel : Channel.t) (followee : User.t) (silent : bool)
    : M unit :=
  following <- channelFollowRequestsRepository_findOne
                 ["follower"; "channelId"]
                 (User.id followee) (Channel.id channel) ;;
  match following with
  | None => ret tt
  | Some following =>
    following_follower <- usersRepository_findOneBy
                            (ChannelFollowRequest.followerId following) ;;
    match following_follower, ChannelFollowRequest.followee following with
    | Some following_follower, Some following_followee =>
      followingsRepository_delete (ChannelFollowRequest.id following) ;;
      follower <- @unbound User.t "follower" ;;
      emit (userFollowingsCacheRefresh (User.id follower)) ;;
      detached (decrementFollowing following_follower following_followee) ;;
      (if negb silent && isLocalUser follower then
         let packed := mkPacked (User.id followee) (User.id follower) true in
         emit (publishMainStream (User.id follower) "unfollow" packed) ;;
         deliverWebhooks (User.id follower) "unfollow" packed
       else ret tt) ;;
      (if isLocalUser follower && isRemoteUser followee then
         deliver (User.id follower)
           (addContext
              (renderUndo
                 (renderFollow (User.id follower) (User.id followee) None)
                 (User.id follower)))
           (User.inbox followee) false
       else ret tt) ;;
      if isLocalUser followee && isRemoteUser follower then
        deliver (User.id followee)
          (addContext
             (renderReject
                (renderFollow (User.id follower) (User.id followee) None)
                (User.id followee)))
          (User.inbox follower) false
      else ret tt
    | _, _ => ret tt
    end
  end.

(** [cancelFollowRequest(followee, follower)], lines 446-479. *)
Definition cancelFollowRequest (followee follower : User.t) : M unit :=
  (if isRemoteUser followee then
     let content :=
       addContext
         (renderUndo
            (renderFollow (User.id follower) (User.id followee) None)
            (User.id follower)) in
     if isLocalUser follower then
       deliver (User.id follower) content (User.inbox followee) false
     else ret tt
   else ret tt) ;;
  request <- @this_followRequestsRepository (option FollowRequest.t)
               "findOneBy" ;;
  match request with
  | None =>
    throw (IdentifiableError "17447091-ce07-46dd-b331-c1fd4f15b1e7"
             "request not found")
  | Some _ =>
    @this_followRequestsRepository unit "delete" ;;
    emit (publishMainStream (User.id followee) "meUpdated"
            (mkPacked (User.id followee) (User.id followee) true))
  end.

(** [acceptFollowRequest(followee, follower)], lines 482-507. *)
Definition acceptFollowRequest (followee follower : User.t) : M unit :=
  request <- @this_followRequestsRepository (option FollowRequest.t)
               "findOneBy" ;;
  match request with
  | None =>
    throw (IdentifiableError "8884c2dd-5795-4ac9-b27e-6a01d38190f9"
             "No follow request.")
  | Some request =>
    insertFollowingDoc (asChannel followee) follower false ;;
    (if isRemoteUser follower && isLocalUser followee then
       deliver (User.id followee)
         (addContext
            (renderAccept
               (renderFollow (User.id follower) (User.id followee)
                  (FollowRequest.requestId request))
               (User.id followee)))
         (User.inbox follower) false
     else ret tt) ;;
    emit (publishMainStream (User.id followee) "meUpdated"
            (mkPacked (User.id followee) (User.id followee) true))
  end.

(** [acceptAllFollowRequests(user)], lines 510-523; the call to
    [acceptFollowRequest] in the loop is not awaited. *)
Definition acceptAllFollowRequests (user : User.t) : M unit :=
  requests <- @this_followRequestsRepository (list FollowRequest.t)
                "findBy" ;;
  forEach requests (fun request =>
    follower <- orFail "User"
                  (usersRepository_findOneBy
                     (FollowRequest.followerId request)) ;;
    detached (acceptFollowRequest user follower)).

(** [removeFollowRequest(channel, follower)], lines 553-562. *)
Definition removeFollowRequest (channel : Channel.t) (follower : User.t)
    : M unit :=
  request <- @this_followRequestsRepository (option FollowRequest.t)
               "findOneBy" ;;
  match request with
  | None => ret tt
  | Some _ => @this_followRequestsRepository unit "delete"
  end.

(** [removeFollow(followee, follower)], lines 568-585; of both arguments
    only the [id] is read.  The call to [decrementFollowing] is not
    awaited. *)
Definition removeFollow (followeeId followerId : Id) : M unit :=
  following <- followingsRepository_findOneBy followerId followeeId ;;
  match following with
  | None => ret tt
  | Some following =>
    following_followee <- usersRepository_findOneBy
                            (Following.followeeId following) ;;
    following_follower <- usersRepository_findOneBy
                            (Following.followerId following) ;;
    match following_followee, following_follower with
    | Some following_followee, Some following_follower =>
      followingsRepository_delete (Following.id following) ;;
      detached (decrementFollowing following_follower following_followee)
    | _, _ => ret tt
    end
  end.

(** [rejectFollowRequest(channel, follower)], lines 529-535; the call to
    [publishUnfollow] is not awaited. *)
Definition rejectFollowRequest (channel : Channel.t) (follower : User.t)
    : M unit :=
  removeFollowRequest channel follower ;;
  if isLocalUser follower then
    detached (publishUnfollow (Channel.id channel) follower)
  else ret tt.

(** [rejectFollow(channel, follower)], lines 541-547. *)
Definition rejectFollow (channel : Channel.t) (follower : User.t) : M unit :=
  removeFollow (Channel.id channel) (User.id follower) ;;
  if isLocalUser follower then
    detached (publishUnfollow (Channel.id channel) follower)
  else ret tt.

(** [deliverReject(followee, follower)], lines 591-599. *)
Definition deliverReject (followee follower : User.t) : M unit :=
  request <- @this_followRequestsRepository (option FollowRequest.t)
               "findOneBy" ;;
  deliver (User.id followee)
    (addContext
       (renderReject
          (renderFollow (User.id follower) (User.id followee)
             (match request with
              | Some r => FollowRequest.requestId r
              | None => None
              end))
          (User.id followee)))
    (User.inbox follower) false.

(** ** The operations of the orchestrator, as data *)

Inductive Operation : Type :=
| Follow (_follower _channel : Id) (requestId : option string) (silent : bool)
| Unfollow (channel : Channel.t) (followee : User.t) (silent : bool)
| CreateFollowRequest (follower followee : User.t) (requestId : option string)
| CancelFollowRequest (followee follower : User.t)
| AcceptFollowRequest (followee follower : User.t)
| AcceptAllFollowRequests (user : User.t)
| RejectFollowRequest (channel : Channel.t) (follower : User.t)
| RejectFollow (channel : Channel.t) (follower : User.t).

Definition run (op : Operation) : M unit :=
  match op with
  | Follow f c r silent => follow f c r silent
  | Unfollow c f silent => unfollow c f silent
  | CreateFollowRequest f e r => createFollowRequest f e r
  | CancelFollowRequest e f => cancelFollowRequest e f
  | AcceptFollowRequest e f => acceptFollowRequest e f
  | AcceptAllFollowRequests u => acceptAllFollowRequests u
  | RejectFollowRequest c f => rejectFollowRequest c f
  | RejectFollow c f => rejectFollow c f
  end.

End UserFollowingService.

(** ** [ChannelService] *)

Module ChannelFollowing.
(** Modelled from the spec: the [ChannelFollowing] entity
    ([models/entities/ChannelFollowing.ts]) is not part of the sources at
    hand; [id], [followeeId] and [followerId] are the columns
    [ChannelFollowingEntityService.pack] and [ChannelService.isFolloing]
    read. *)
Record t := mk {
  id : Id;
  followeeId : Id;
  followerId : Id
}.
End ChannelFollowing.

Module ChannelService.

(** The repositories the constructor injects. *)
Record t := mk {
  channelsRepository : list Channel.t;
  channelFollowingsRepository : list ChannelFollowing.t;
  usersRepository : list User.t
}.

Definition findChannel (this : t) (id : Id) : option Channel.t :=
  option_map Channel.unloaded
    (find (fun c => String.eqb (Channel.id c) id) (channelsRepository this)).

(** [getChannel(id)], lines 22-26. *)
Definition getChannel (this : t) (id : Id) : Result (option Channel.t) :=
  Ok (findChannel this id).

(** [isPublic(id)], lines 29-32. *)
Definition isPublic (this : t) (id : Id) : Result bool :=
  match findChannel this id with
  | Some channel => Ok (Channel.isPublic channel)
  | None => Throw (EntityNotFoundError "Channel")
  end.

(** [isFolloing(channelId, userId)], lines 35-41. *)
Definition isFolloing (this : t) (channelId userId : Id) : Result bool :=
  let channelFollowing :=
    find (fun f =>
            String.eqb (ChannelFollowing.followeeId f) channelId
            && String.eqb (ChannelFollowing.followerId f) userId)
      (channelFollowingsRepository this) in
  Ok (isSome channelFollowing).

(** [isOwner(channelId, userId)], lines 44-47. *)
Definition isOwner (this : t) (channelId userId : Id) : Result bool :=
  match findChannel this channelId with
  | Some channel =>
    Ok (match Channel.userId channel with
        | Some owner => String.eqb owner userId
        | None => false
        end)
  | None => Throw (EntityNotFoundError "Channel")
  end.

End ChannelService.

(** ** What the relationship store holds for an ordered pair *)

(** A pending request of [follower] for [followee]: a row of
    [channelFollowRequestsRepository]. *)
Definition hasRequest (s : State) (follower followee : Id) : bool :=
  existsb (matchesRequest followee follower) (channelFollowRequestsRepository s).

(** An established edge from [follower] to [followee]: a row of
    [followingsRepository]. *)
Definition hasEdge (s : State) (follower followee : Id) : bool :=
  existsb (matchesFollowing follower followee) (followingsRepository s).

Definition blocks (s : State) (blocker blockee : Id) : bool :=
  existsb (pairEqb (blocker, blockee)) (blockings s).

Definition findUser (s : State) (i : Id) : option User.t :=
  find (fun u => String.eqb (User.id u) i) (usersRepository s).

Definition findChannel (s : State) (i : Id) : option Channel.t :=
  find (fun c => String.eqb (Channel.id c) i) (channelRepository s).

(** No pair has both a pending request and an edge. *)
Definition exclusive (s : State) : Prop :=
  forall follower followee,
    hasRequest s follower followee && hasEdge s follower followee = false.

(** The operations of a list, one call after the other; a call that throws
    does not keep the next one from being made. *)
Fixpoint runAll
    (validateAlsoKnownAs :
       State -> User.t -> (User.t -> User.t -> bool) -> bool -> option User.t)
    (userLookupSettlesFirst : State -> bool)
    (ops : list Operation) (s : State) : State :=
  match ops with
  | [] => s
  | op :: rest =>
    runAll validateAlsoKnownAs userLookupSettlesFirst rest
      (snd (run validateAlsoKnownAs userLookupSettlesFirst op s))
  end.

(** Both tables of the relationship store lost rows at most. *)
Definition shrinks (s s' : State) : Prop :=
  (exists keep,
     channelFollowRequestsRepository s'
     = filter keep (channelFollowRequestsRepository s))
  /\ (exists keep,
       followingsRepository s' = filter keep (followingsRepository s)).

(** Both tables of the relationship store are as they were. *)
Definition sameStore (s s' : State) : Prop :=
  channelFollowRequestsRepository s' = channelFollowRequestsRepository s
  /\ followingsRepository s' = followingsRepository s.

(** A computation that writes to neither table, whatever it answers. *)
Definition keepsStore {A : Type} (m : M A) : Prop :=
  forall s, sameStore s (snd (m s)).

(** ** The counter reconciler, as the spec words it *)

(** What line 323 and line 353 test: [movedToUri] is truthy. *)
Definition migrated (u : User.t) : bool := truthy (User.movedToUri u).

(** A brute-force count over an edge set. *)
Fixpoint countEdges (p : Following.t -> bool) (edges : list Following.t) : Z :=
  match edges with
  | [] => 0%Z
  | e :: rest => ((if p e then 1 else 0) + countEdges p rest)%Z
  end.

(** The counterpart's [movedToUri] is null. *)
Definition counterpartNotMoved (s : State) (i : Id) : bool :=
  match findUser s i with
  | Some u => match User.movedToUri u with None => true | Some _ => false end
  | None => true
  end.

(** The edges of [i] as follower whose followee has not moved. *)
Definition bruteFollowingCount (s : State) (i : Id) : Z :=
  countEdges (fun e =>
    String.eqb (Following.followerId e) i
    && counterpartNotMoved s (Following.followeeId e)) (followingsRepository s).

(** The edges of [i] as followee whose follower has not moved. *)
Definition bruteFollowersCount (s : State) (i : Id) : Z :=
  countEdges (fun e =>
    String.eqb (Following.followeeId e) i
    && counterpartNotMoved s (Following.followerId e)) (followingsRepository s).

Definition recount (s : State) (u : User.t) : User.t :=
  User.set_followersCount (bruteFollowersCount s (User.id u))
    (User.set_followingCount (bruteFollowingCount s (User.id u)) u).

(** Fast path: the follower's [followingCount] and the followee's
    [followersCount] go down by one, every other counter stays. *)
Definition fastPath (follower followee : User.t) (u : User.t) : User.t :=
  User.mk (User.id u) (User.host u) (User.uri u) (User.inbox u)
    (User.sharedInbox u) (User.movedToUri u) (User.isLocked u) (User.isBot u)
    (if String.eqb (User.id u) (User.id follower)
     then User.followingCount u - 1 else User.followingCount u)%Z
    (if String.eqb (User.id u) (User.id followee)
     then User.followersCount u - 1 else User.followersCount u)%Z.

(** Slow path: the counters of each endpoint that [moved] does not hold of
    are overwritten by the brute-force counts. *)
Definition slowPath (moved : User.t -> bool) (s : State)
    (follower followee : User.t) (u : User.t) : User.t :=
  if (String.eqb (User.id u) (User.id follower) && negb (moved follower))
     || (String.eqb (User.id u) (User.id followee) && negb (moved followee))
  then recount s u
  else u.


(** ** Sample data *)

Module Sample.

Definition noAlsoKnownAs
    : State -> User.t -> (User.t -> User.t -> bool) -> bool -> option User.t :=
  fun _ _ _ _ => None.

Definition userFirst : State -> bool := fun _ => true.

Definition localUser (i : Id) : User.t :=
  User.mk i None None None None None false false 0 0.

Definition remoteUser (i : Id) : User.t :=
  User.mk i (Some "remote.example") (Some "https://remote.example/u")
    (Some "https://remote.example/inbox") None None false false 0 0.

Definition alice : User.t := localUser "alice".
Definition bob : User.t := remoteUser "bob".
Definition owner : User.t := localUser "owner".

(** A channel row, and the same channel with its owner loaded. *)
Definition lounge : Channel.t := Channel.mk "lounge" (Some "owner") None true.
Definition loungeLoaded : Channel.t :=
  Channel.mk "lounge" (Some "owner") (Some owner) true.

Definition base : State :=
  mkState [alice; bob; owner]
    [UserProfile.mk "alice" false false; UserProfile.mk "bob" false false;
     UserProfile.mk "owner" false false]
    [] [] [lounge] [] [] 0 [] [].

(** alice blocks the channel *)
Definition aliceBlocks : State := set_blockings (fun _ => [("alice", "lounge")]) base.

(** the channel blocks bob *)
Definition bobBlocked : State := set_blockings (fun _ => [("lounge", "bob")]) base.

(** a row for the pair (bob, lounge) is stored already *)
Definition bobStored : State :=
  set_channelFollowRequests
    (fun _ => [ChannelFollowRequest.mk "r1" "lounge" "bob" None]) base.

(** alice has a pending request on the channel *)
Definition alicePending : State :=
  set_channelFollowRequests
    (fun _ => [ChannelFollowRequest.mk "r2" "lounge" "alice" None]) base.

(** an edge alice -> lounge in the edge table, with a user row for the
    followee side so that the relations load *)
Definition loungeActor : User.t := localUser "lounge".
Definition withEdge : State :=
  set_followings (fun _ => [Following.mk "f1" "alice" "lounge"])
    (set_users (fun us => us ++ [loungeActor]) base).

(** the edge alice -> lounge next to a pending request of bob *)
Definition mixed : State :=
  set_channelFollowRequests
    (fun _ => [ChannelFollowRequest.mk "r1" "lounge" "bob" None]) withEdge.

(** a follower whose [movedToUri] is the empty string *)
Definition blank : User.t :=
  User.mk "blank" None None None None (Some "") false false 5 5.
Definition carol : User.t :=
  User.mk "carol" None None None None None false false 7 7.
Definition moved : User.t :=
  User.mk "moved" None None None None (Some "https://new.example/u")
    false false 3 3.

Definition dave : User.t :=
  User.mk "dave" None None None None None false false 1 1.

Definition counters : State :=
  mkState [blank; carol; moved; dave] []
    [Following.mk "f2" "carol" "moved"; Following.mk "f3" "blank" "carol";
     Following.mk "f4" "carol" "blank"; Following.mk "f5" "carol" "dave";
     Following.mk "f6" "dave" "carol"]
    [] [] [] [] 0 [] [].

End Sample.

(** ** Results outside the service's monad *)

(** [await] of a promise, then the rest. *)
Definition andThen {A B : Type} (r : Result A) (k : A -> Result B)
    : Result B :=
  match r with
  | Ok a => k a
  | Throw e => Throw e
  end.

(** [Promise.all] over promises that are already settled: the values in
    order, or the leftmost rejection. *)
Fixpoint promiseAll {A : Type} (rs : list (Result A)) : Result (list A) :=
  match rs with
  | [] => Ok []
  | r :: rest =>
    andThen r (fun a => andThen (promiseAll rest) (fun l => Ok (a :: l)))
  end.

(** ** [FollowingEntityService]
    ([packages/backend/src/core/entities/ChannelFollowingEntityService.ts]) *)

Module FollowingEntityService.

(** The entity object the service is handed: the columns of
    [ChannelFollowing], the denormalised hosts the four predicates read, and
    the two relations, present when the query loaded them. *)
Record Following := mkFollowing {
  columns : ChannelFollowing.t;
  followerHost : option string;
  followeeHost : option string;
  followee : option User.t;
  follower : option User.t
}.

(** [isLocalFollower(following)], lines 47-49. *)
Definition isLocalFollower (following : Following) : bool :=
  negb (isSome (followerHost following)).

(** [isRemoteFollower(following)], lines 52-54. *)
Definition isRemoteFollower (following : Following) : bool :=
  isSome (followerHost following).

(** [isLocalFollowee(following)], lines 57-59. *)
Definition isLocalFollowee (following : Following) : bool :=
  negb (isSome (followeeHost following)).

(** [isRemoteFollowee(following)], lines 62-64. *)
Definition isRemoteFollowee (following : Following) : bool :=
  isSome (followeeHost following).

(** The first argument of [pack]: [Following['id'] | Following]. *)
Inductive Src : Type :=
| ById (id : Id)
| Loaded (following : Following).

(** The third argument of [pack]; an absent flag is falsy. *)
Record Opts := mkOpts {
  populateFollowee : bool;
  populateFollower : bool
}.

Section Pack.

(** [UserEntityService.pack(src, me, { detail })] is not part of the sources
    at hand; it is a parameter, and it may throw.  Its first argument is a
    user object or a user id. *)
Variable PackedUser : Type.
Variable userEntityService_pack :
  User.t + Id -> option Id -> bool -> Result PackedUser.

Record Packed := mkPacked {
  packed_id : Id;
  packed_followeeId : Id;
  packed_followerId : Id;
  packed_followee : option PackedUser;
  packed_follower : option PackedUser
}.

(** [x ?? y] for a relation [x] and an id [y]. *)
Definition orId (relation : option User.t) (id : Id) : User.t + Id :=
  match relation with
  | Some u => inl u
  | None => inr id
  end.

(** [pack(src, me, opts)], lines 67-91.  The constructor declares the field
    [channelFollowingsRepository]; line 75 reads [this.followingsRepository],
    which is [undefined].  Both calls to [userEntityService.pack] are made
    before [awaitAll] waits; the followee's one is taken to settle first. *)
Definition pack (src : Src) (me : option Id) (opts : option Opts)
    : Result Packed :=
  andThen
    (match src with
     | Loaded following => Ok following
     | ById _ => Throw (TypeError "findOneByOrFail")
     end)
    (fun following =>
       let opts := match opts with
                   | Some o => o
                   | None => mkOpts false false
                   end in
       andThen
         (if populateFollowee opts then
            andThen
              (userEntityService_pack
                 (orId (followee following)
                    (ChannelFollowing.followeeId (columns following)))
                 me true)
              (fun p => Ok (Some p))
          else Ok None)
         (fun packedFollowee =>
            andThen
              (if populateFollower opts then
                 andThen
                   (userEntityService_pack
                      (orId (follower following)
                         (ChannelFollowing.followerId (columns following)))
                      me true)
                   (fun p => Ok (Some p))
               else Ok None)
              (fun packedFollower =>
                 Ok (mkPacked
                       (ChannelFollowing.id (columns following))
                       (ChannelFollowing.followeeId (columns following))
                       (ChannelFollowing.followerId (columns following))
                       packedFollowee packedFollower)))).

(** [packMany(followings, me, opts)], lines 94-103. *)
Definition packMany (followings : list Src) (me : option Id)
    (opts : option Opts) : Result (list Packed) :=
  promiseAll (map (fun x => pack x me opts) followings).

(** The packed form of an entity object with nothing populated. *)
Definition plain (following : Following) : Packed :=
  mkPacked (ChannelFollowing.id (columns following))
    (ChannelFollowing.followeeId (columns following))
    (ChannelFollowing.followerId (columns following)) None None.

End Pack.

End FollowingEntityService.

(** ** Conditions on the tables *)

(** The primary key of the edge table: no two rows share an [id]. *)
Definition edgeKeysUnique (s : State) : Prop :=
  NoDup (map Following.id (followingsRepository s)).

(** The unique index of the edge table: no two rows are for the same
    ordered pair. *)
Definition edgePairsUnique (s : State) : Prop :=
  forall r1 r2,
    In r1 (followingsRepository s) -> In r2 (followingsRepository s) ->
    Following.followerId r1 = Following.followerId r2 ->
    Following.followeeId r1 = Following.followeeId r2 ->
    r1 = r2.

(** Every stored user's counters are the brute-force counts over the edge
    table. *)
Definition countersAgree (s : State) : Prop :=
  forall u,
    In u (usersRepository s) ->
    User.followingCount u = bruteFollowingCount s (User.id u)
    /\ User.followersCount u = bruteFollowersCount s (User.id u).

(** The state differs from [s] in the block table at most. *)
Definition sameButBlockings (s s' : State) : Prop :=
  s' = set_blockings (fun _ => blockings s') s.

(** The job [cancelFollowRequest] hands to the deliver queue. *)
Definition undoFollowJob (follower followee : User.t) : DeliverJob :=
  mkDeliverJob (User.id follower)
    (addContext
       (renderUndo (renderFollow (User.id follower) (User.id followee) None)
          (User.id follower)))
    (User.inbox followee) false.

(** The webhooks [publishUnfollow] calls for a follower. *)
Definition unfollowWebhooks (s : State) (followerId : Id) : list Webhook.t :=
  filter (fun x =>
    String.eqb (Webhook.userId x) followerId
    && existsb (String.eqb "unfollow") (Webhook.on x)) (activeWebhooks s).

(** The effects [publishUnfollow] adds. *)
Definition unfollowEffects (s : State) (followeeId : Id) (follower : User.t)
    : list Effect :=
  let packed := mkPacked followeeId (User.id follower) true in
  publishMainStream (User.id follower) "unfollow" packed
  :: map (fun webhook => webhookDeliver webhook "unfollow" packed)
       (unfollowWebhooks s (User.id follower)).

(** ** More sample data *)

Module Fixture.

(** bob, a remote user, blocks the channel *)
Definition bobBlocks : State :=
  set_blockings (fun _ => [("bob", "lounge"); ("alice", "bob")]) Sample.base.

(** the channel blocks alice and alice blocks the channel *)
Definition mutual : State :=
  set_blockings (fun _ => [("lounge", "alice"); ("alice", "lounge")])
    Sample.base.

(** the edge alice -> lounge with counters that agree with the table, and
    two webhooks, one of them alice's for unfollow *)
Definition aliceOne : User.t :=
  User.mk "alice" None None None None None false false 1 0.
Definition loungeOne : User.t :=
  User.mk "lounge" None None None None None false false 0 1.
Definition hookAlice : Webhook.t := Webhook.mk "alice" ["follow"; "unfollow"].
Definition hookBob : Webhook.t := Webhook.mk "bob" ["unfollow"].
Definition hookQuiet : Webhook.t := Webhook.mk "alice" ["follow"].

Definition agreed : State :=
  mkState [aliceOne; Sample.bob; loungeOne] []
    [Following.mk "f1" "alice" "lounge"] [] [Sample.lounge] []
    [hookAlice; hookBob; hookQuiet] 0 [] [].

(** a remote followee for alice's requests *)
Definition remoteCarol : User.t := Sample.remoteUser "carol".

(** entity objects for [FollowingEntityService] *)
Definition following1 : FollowingEntityService.Following :=
  FollowingEntityService.mkFollowing
    (ChannelFollowing.mk "cf1" "lounge" "alice") None None None None.
Definition following2 : FollowingEntityService.Following :=
  FollowingEntityService.mkFollowing
    (ChannelFollowing.mk "cf2" "lounge" "bob") (Some "remote.example") None
    None (Some Sample.bob).

(** a [userEntityService.pack] that always throws *)
Definition failingPack : User.t + Id -> option Id -> bool -> Result unit :=
  fun _ _ _ => Throw (EntityNotFoundError "User").

(** channels for [ChannelService]: one owned, one without an owner *)
Definition channels : ChannelService.t :=
  ChannelService.mk
    [Sample.lounge; Channel.mk "orphan" None None false] [] [].

End Fixture.

(** * Properties *)

(** Unfolds the monad of the service in the goal. *)
Ltac unfold_service :=
  unfold orFail, unbound, this_followRequestsRepository, emit;
  unfold gets, modify, detached, catch, bind, ret, throw;
  cbv beta iota.

(** ** [ChannelService.isFolloing] *)

Lemma find_isSome_iff :
  forall (A : Type) (p : A -> bool) (l : list A),
    isSome (find p l) = true <-> exists x, In x l /\ p x = true.
Proof.
  intros A p l; induction l as [| a l IH]; simpl.
  - split; [discriminate | intros [x [[] _]]].
  - destruct (p a) eqn:Hpa; simpl.
    + split; [intros _; exists a; auto | reflexivity].
    + rewrite IH; split.
      * intros [x [Hin Hx]]; exists x; auto.
      * intros [x [[Heq | Hin] Hx]]; [subst; congruence | exists x; auto].
Qed.

(** C10: [isFolloing(channelId, userId)] returns, never throws, and the
    boolean it returns is true exactly when the channel-following table has
    a row whose [followeeId] is [channelId] and whose [followerId] is
    [userId]; neither id has to name an existing channel or user. *)
Theorem isFolloing_iff_row :
  forall (this : ChannelService.t) (channelId userId : Id),
    exists b,
      ChannelService.isFolloing this channelId userId = Ok b
      /\ (b = true <->
          exists row,
            In row (ChannelService.channelFollowingsRepository this)
            /\ ChannelFollowing.followeeId row = channelId
            /\ ChannelFollowing.followerId row = userId).
Proof.
  intros this channelId userId; unfold ChannelService.isFolloing.
  eexists; split; [reflexivity |].
  rewrite find_isSome_iff; split; intros [row [Hin Hrow]]; exists row.
  - apply andb_true_iff in Hrow; destruct Hrow as [H1 H2].
    apply String.eqb_eq in H1, H2; auto.
  - destruct Hrow as [H1 H2]; split; [assumption |].
    rewrite H1, H2, !String.eqb_refl; reflexivity.
Qed.

(** ** [unfollow] *)

(** Line 268 asks [findOne] for the relation [channelId], which is a column
    of the entity: the lookup rejects before it queries, and the method
    with it, on every input.  The guard of lines 276-279 is not reached. *)
Lemma unfollow_rejects :
  forall (channel : Channel.t) (followee : User.t) (silent : bool) (s : State),
    unfollow channel followee silent s
    = (Throw (EntityPropertyNotFoundError "channelId"), s).
Proof.
  intros channel followee silent s; unfold unfollow.
  unfold channelFollowRequestsRepository_findOne; simpl find.
  unfold_service; reflexivity.
Qed.

(** C6: with no stored edge from the first argument (the follower of the
    lookup, line 271) to the second, [unfollow] does not return: the lookup
    of lines 265-274 rejects with EntityPropertyNotFoundError for the
    relations entry [channelId], and the call with it.  The state is left
    as it was: the tables, the counters and the deliver queue. *)
Theorem unfollow_without_edge_rejects :
  forall (channel : Channel.t) (followee : User.t) (silent : bool) (s : State),
    hasEdge s (Channel.id channel) (User.id followee) = false ->
    unfollow channel followee silent s
    = (Throw (EntityPropertyNotFoundError "channelId"), s).
Proof.
  intros channel followee silent s _; apply unfollow_rejects.
Qed.

Lemma unfollow_without_edge_rejects_witness :
  hasEdge Sample.base "lounge" "alice" = false
  /\ unfollow Sample.lounge Sample.alice false Sample.base
     = (Throw (EntityPropertyNotFoundError "channelId"), Sample.base).
Proof.
  split; [reflexivity |].
  apply (unfollow_without_edge_rejects Sample.lounge Sample.alice false
           Sample.base).
  reflexivity.
Defined.

(** ** The methods that go through [this.followRequestsRepository] *)

(** C7: [acceptFollowRequest] reads [findOneBy] off
    [this.followRequestsRepository], which the class does not have: on every
    state and every pair the call ends in a TypeError and writes nothing.  It
    neither raises [IdentifiableError 8884c2dd...] for a missing request nor
    turns a pending request into an edge. *)
Theorem acceptFollowRequest_throws_TypeError :
  forall (followee follower : User.t) (s : State),
    acceptFollowRequest followee follower s
    = (Throw (TypeError "findOneBy"), s).
Proof.
  intros followee follower s; unfold acceptFollowRequest.
  unfold_service; reflexivity.
Qed.

Lemma removeFollowRequest_throws_TypeError :
  forall (channel : Channel.t) (follower : User.t) (s : State),
    removeFollowRequest channel follower s
    = (Throw (TypeError "findOneBy"), s).
Proof. reflexivity. Qed.

(** C9: [rejectFollowRequest] awaits [removeFollowRequest], whose first
    statement reads [findOneBy] off [this.followRequestsRepository]: on every
    state the call ends in a TypeError, with the state as it was. *)
Theorem rejectFollowRequest_throws_TypeError :
  forall (channel : Channel.t) (follower : User.t) (s : State),
    rejectFollowRequest channel follower s
    = (Throw (TypeError "findOneBy"), s).
Proof.
  intros channel follower s; unfold rejectFollowRequest, bind.
  rewrite removeFollowRequest_throws_TypeError; reflexivity.
Qed.

(** A pending row for (alice, lounge) is stored: the call throws all the
    same, the row stays and no edge appears. *)
Example acceptFollowRequest_pending_sample :
  acceptFollowRequest Sample.loungeActor Sample.alice Sample.alicePending
  = (Throw (TypeError "findOneBy"), Sample.alicePending)
  /\ hasRequest Sample.alicePending "alice" "lounge" = true
  /\ hasEdge Sample.alicePending "alice" "lounge" = false.
Proof. repeat split. Qed.

Lemma acceptAllFollowRequests_throws_TypeError :
  forall (user : User.t) (s : State),
    acceptAllFollowRequests user s = (Throw (TypeError "findBy"), s).
Proof. reflexivity. Qed.

(** ** States that only lose edges *)

Lemma filter_all :
  forall (A : Type) (l : list A), filter (fun _ => true) l = l.
Proof.
  intros A l; induction l as [| a l IH]; simpl; [| rewrite IH]; reflexivity.
Qed.

Lemma filter_filter :
  forall (A : Type) (p q : A -> bool) (l : list A),
    filter q (filter p l) = filter (fun x => p x && q x) l.
Proof.
  intros A p q l; induction l as [| a l IH]; simpl; [reflexivity |].
  destruct (p a); simpl; [destruct (q a) |]; rewrite IH; reflexivity.
Qed.

Lemma shrinks_of_eq :
  forall s s',
    channelFollowRequestsRepository s' = channelFollowRequestsRepository s ->
    followingsRepository s' = followingsRepository s ->
    shrinks s s'.
Proof.
  intros s s' Hreq Hfol; split;
    exists (fun _ => true); rewrite filter_all; assumption.
Qed.

Lemma shrinks_refl : forall s, shrinks s s.
Proof. intros s; apply shrinks_of_eq; reflexivity. Qed.

Lemma shrinks_trans :
  forall s1 s2 s3, shrinks s1 s2 -> shrinks s2 s3 -> shrinks s1 s3.
Proof.
  intros s1 s2 s3 [[r1 Hr12] [k1 Hf12]] [[r2 Hr23] [k2 Hf23]]; split.
  - exists (fun x => r1 x && r2 x).
    rewrite Hr23, Hr12; apply filter_filter.
  - exists (fun x => k1 x && k2 x).
    rewrite Hf23, Hf12; apply filter_filter.
Qed.

Lemma existsb_filter_le :
  forall (A : Type) (p keep : A -> bool) (l : list A),
    existsb p (filter keep l) = true -> existsb p l = true.
Proof.
  intros A p keep l H; apply existsb_exists in H; destruct H as [x [Hin Hp]].
  apply filter_In in Hin; apply existsb_exists; exists x; tauto.
Qed.

Lemma shrinks_exclusive :
  forall s s', shrinks s s' -> exclusive s -> exclusive s'.
Proof.
  intros s s' [[keepR Hreq] [keepF Hfol]] Hex follower followee.
  specialize (Hex follower followee).
  unfold hasRequest, hasEdge in *; rewrite Hreq, Hfol.
  apply andb_false_iff in Hex; apply andb_false_iff.
  destruct Hex as [Hex | Hex]; [left | right];
    match goal with
    | |- ?b = false => destruct b eqn:Hx; [| reflexivity]
    end;
    apply existsb_filter_le in Hx; congruence.
Qed.

Lemma cancelFollowRequest_throws_TypeError :
  forall (followee follower : User.t) (s : State),
    fst (cancelFollowRequest followee follower s)
    = Throw (TypeError "findOneBy")
    /\ shrinks s (snd (cancelFollowRequest followee follower s)).
Proof.
  intros followee follower s; unfold cancelFollowRequest, deliver.
  unfold_service.
  destruct (isRemoteUser followee), (isLocalUser follower); simpl;
    (split; [reflexivity | apply shrinks_of_eq; reflexivity]).
Qed.

(** ** [follow] *)

Ltac unfold_follow :=
  unfold follow, promiseAllPair, usersRepository_findOneBy,
    channelRepository_findOneBy, checkBlocked, unblock, deliver;
  unfold_service.

(** Splits on the tests of the conditionals left in the goal. *)
Ltac split_tests :=
  repeat (match goal with
          | |- context [if ?b then _ else _] => destruct b
          end; cbv beta iota).

(** Every path through [follow] ends in a throw: a lookup fails, a block is
    reported, or [followee] is read. *)
Lemma follow_never_returns :
  forall vaka race _follower _channel requestId silent s,
    exists e,
      fst (follow vaka race _follower _channel requestId silent s) = Throw e.
Proof.
  intros vaka race f c r silent s; unfold_follow.
  destruct (find _ (usersRepository s)) as [follower |];
    destruct (find _ (channelRepository s)) as [channel |]; simpl;
    split_tests; eexists; reflexivity.
Qed.

(** [follow] writes to neither table of the relationship store. *)
Lemma follow_shrinks :
  forall vaka race _follower _channel requestId silent s,
    shrinks s (snd (follow vaka race _follower _channel requestId silent s)).
Proof.
  intros vaka race f c r silent s; unfold_follow.
  destruct (find _ (usersRepository s)) as [follower |];
    destruct (find _ (channelRepository s)) as [channel |]; simpl;
    split_tests; apply shrinks_of_eq; reflexivity.
Qed.

(** C2: a local follower and a channel, both stored, with a block in either
    direction: [follow] throws the IdentifiableError with message "blocking"
    when the follower blocks the channel, the one with message "blocked"
    when only the channel blocks the follower, and the state is left as it
    was, so neither a request nor an edge is created. *)
Theorem follow_local_block_raises :
  forall vaka race _follower _channel requestId silent s follower channel,
    findUser s _follower = Some follower ->
    findChannel s _channel = Some channel ->
    isLocalUser follower = true ->
    blocks s (User.id follower) (Channel.id channel)
    || blocks s (Channel.id channel) (User.id follower) = true ->
    follow vaka race _follower _channel requestId silent s
    = (Throw
         (if blocks s (User.id follower) (Channel.id channel)
          then IdentifiableError "710e8fb0-b8c3-4922-be49-d5d93d8e6a6e"
                 "blocking"
          else IdentifiableError "3338392a-f764-498d-8855-db939dcf8c48"
                 "blocked"),
       s).
Proof.
  intros vaka race f c r silent s follower channel Hu Hc Hlocal Hblock.
  unfold findUser in Hu; unfold findChannel in Hc; unfold blocks in *.
  unfold_follow; rewrite Hu, Hc; simpl.
  unfold isLocalUser in Hlocal; unfold isRemoteUser.
  destruct (isSome (User.host follower)); [discriminate |]; simpl.
  destruct (existsb _ (blockings s)); simpl; [reflexivity |].
  simpl in Hblock; rewrite Hblock; reflexivity.
Qed.

Lemma follow_local_block_raises_witness :
  follow Sample.noAlsoKnownAs Sample.userFirst
        "alice" "lounge" None false Sample.aliceBlocks
  = (Throw (IdentifiableError "710e8fb0-b8c3-4922-be49-d5d93d8e6a6e"
              "blocking"),
     Sample.aliceBlocks).
Proof.
  apply (follow_local_block_raises Sample.noAlsoKnownAs Sample.userFirst
        "alice" "lounge" None
           false Sample.aliceBlocks Sample.alice Sample.lounge);
    reflexivity.
Defined.

(** C3: a remote follower and a channel, both stored, the channel blocking
    the follower: [follow] reads [followee] while it builds the Reject
    activity (line 101) and throws a ReferenceError; the state is left as it
    was, so no Reject is put on the deliver queue. *)
Theorem follow_remote_blocked_throws :
  forall vaka race _follower _channel requestId silent s follower channel,
    findUser s _follower = Some follower ->
    findChannel s _channel = Some channel ->
    isRemoteUser follower = true ->
    blocks s (Channel.id channel) (User.id follower) = true ->
    follow vaka race _follower _channel requestId silent s
    = (Throw (ReferenceError "followee"), s).
Proof.
  intros vaka race f c r silent s follower channel Hu Hc Hremote Hblocked.
  unfold findUser in Hu; unfold findChannel in Hc; unfold blocks in *.
  unfold_follow; rewrite Hu, Hc; simpl.
  rewrite Hremote, Hblocked; reflexivity.
Qed.

Lemma follow_remote_blocked_throws_witness :
  follow Sample.noAlsoKnownAs Sample.userFirst
        "bob" "lounge" None false Sample.bobBlocked
  = (Throw (ReferenceError "followee"), Sample.bobBlocked).
Proof.
  apply (follow_remote_blocked_throws Sample.noAlsoKnownAs Sample.userFirst
        "bob" "lounge" None
           false Sample.bobBlocked Sample.bob Sample.lounge);
    reflexivity.
Defined.

(** C4: a remote follower and a channel, both stored, the channel not
    blocking the follower, and a row for the pair stored already: the
    repeated [follow] reads [followee] at line 113, before it reaches
    [insertFollowingDoc], and throws a ReferenceError. *)
Theorem follow_remote_repeated_throws :
  forall vaka race _follower _channel requestId silent s follower channel,
    findUser s _follower = Some follower ->
    findChannel s _channel = Some channel ->
    isRemoteUser follower = true ->
    blocks s (Channel.id channel) (User.id follower) = false ->
    hasRequest s (User.id follower) (Channel.id channel) = true ->
    fst (follow vaka race _follower _channel requestId silent s)
    = Throw (ReferenceError "followee").
Proof.
  intros vaka race f c r silent s follower channel Hu Hc Hremote Hblocked _.
  unfold findUser in Hu; unfold findChannel in Hc; unfold blocks in *.
  unfold_follow; rewrite Hu, Hc; simpl.
  rewrite Hremote, Hblocked; simpl.
  split_tests; reflexivity.
Qed.

Lemma follow_remote_repeated_throws_witness :
  fst (follow Sample.noAlsoKnownAs Sample.userFirst
        "bob" "lounge" None false Sample.bobStored)
  = Throw (ReferenceError "followee").
Proof.
  apply (follow_remote_repeated_throws Sample.noAlsoKnownAs Sample.userFirst
        "bob" "lounge"
           None false Sample.bobStored Sample.bob Sample.lounge);
    reflexivity.
Defined.

(** C5: a local follower and a channel, both stored, no block in either
    direction: [follow] reads [followee] at line 113 and throws a
    ReferenceError; the state is left as it was, so no request is created. *)
Theorem follow_local_unblocked_throws :
  forall vaka race _follower _channel requestId silent s follower channel,
    findUser s _follower = Some follower ->
    findChannel s _channel = Some channel ->
    isLocalUser follower = true ->
    blocks s (User.id follower) (Channel.id channel) = false ->
    blocks s (Channel.id channel) (User.id follower) = false ->
    follow vaka race _follower _channel requestId silent s
    = (Throw (ReferenceError "followee"), s).
Proof.
  intros vaka race f c r silent s follower channel Hu Hc Hlocal Hblocking Hblocked.
  unfold findUser in Hu; unfold findChannel in Hc; unfold blocks in *.
  unfold_follow; rewrite Hu, Hc; simpl.
  unfold isLocalUser in Hlocal; unfold isRemoteUser.
  destruct (isSome (User.host follower)); [discriminate |]; simpl.
  rewrite Hblocking, Hblocked; reflexivity.
Qed.

Lemma follow_local_unblocked_throws_witness :
  follow Sample.noAlsoKnownAs Sample.userFirst
        "alice" "lounge" None false Sample.base
  = (Throw (ReferenceError "followee"), Sample.base).
Proof.
  apply (follow_local_unblocked_throws Sample.noAlsoKnownAs Sample.userFirst
        "alice" "lounge"
           None false Sample.base Sample.alice Sample.lounge);
    reflexivity.
Defined.

(** [createFollowRequest], the method [follow] would hand the pair to: past
    the self-request guard and the block checks it reads [insert] off
    [this.followRequestsRepository] and throws. *)
Lemma createFollowRequest_throws_TypeError :
  forall follower followee requestId s,
    String.eqb (User.id follower) (User.id followee) = false ->
    blocks s (User.id follower) (User.id followee) = false ->
    blocks s (User.id followee) (User.id follower) = false ->
    createFollowRequest follower followee requestId s
    = (Throw (TypeError "insert"), s).
Proof.
  intros follower followee r s Hself Hblocking Hblocked.
  unfold blocks in *; unfold createFollowRequest, checkBlocked.
  rewrite Hself; unfold_service.
  rewrite Hblocking, Hblocked; reflexivity.
Qed.

Lemma createFollowRequest_keepsStore :
  forall follower followee requestId,
    keepsStore (createFollowRequest follower followee requestId).
Proof.
  intros follower followee r s; unfold createFollowRequest, checkBlocked.
  destruct (String.eqb _ _); [split; reflexivity |].
  unfold_service; split_tests; split; reflexivity.
Qed.

(** ** Computations that leave the relationship store alone *)

Lemma sameStore_refl : forall s, sameStore s s.
Proof. intros s; split; reflexivity. Qed.

Lemma sameStore_trans :
  forall s1 s2 s3, sameStore s1 s2 -> sameStore s2 s3 -> sameStore s1 s3.
Proof. intros s1 s2 s3 [H1 H2] [H3 H4]; split; congruence. Qed.

Lemma sameStore_shrinks : forall s s', sameStore s s' -> shrinks s s'.
Proof. intros s s' [H1 H2]; apply shrinks_of_eq; assumption. Qed.

Lemma keepsStore_ret : forall (A : Type) (a : A), keepsStore (ret a).
Proof. intros A a s; apply sameStore_refl. Qed.

Lemma keepsStore_throw : forall (A : Type) (e : Error), keepsStore (@throw A e).
Proof. intros A e s; apply sameStore_refl. Qed.

Lemma keepsStore_gets :
  forall (A : Type) (f : State -> A), keepsStore (gets f).
Proof. intros A f s; apply sameStore_refl. Qed.

Lemma keepsStore_bind :
  forall (A B : Type) (m : M A) (k : A -> M B),
    keepsStore m -> (forall a, keepsStore (k a)) -> keepsStore (bind m k).
Proof.
  intros A B m k Hm Hk s; unfold bind.
  specialize (Hm s); destruct (m s) as [[a | e] s']; simpl in *.
  - eapply sameStore_trans; [exact Hm | apply Hk].
  - exact Hm.
Qed.

Lemma keepsStore_if :
  forall (A : Type) (b : bool) (m1 m2 : M A),
    keepsStore m1 -> keepsStore m2 -> keepsStore (if b then m1 else m2).
Proof. intros A b m1 m2 H1 H2; destruct b; assumption. Qed.

Lemma keepsStore_detached :
  forall m : M unit, keepsStore m -> keepsStore (detached m).
Proof. intros m Hm s; exact (Hm s). Qed.

Lemma keepsStore_forEach :
  forall (A : Type) (l : list A) (body : A -> M unit),
    (forall a, keepsStore (body a)) -> keepsStore (forEach l body).
Proof.
  intros A l body Hbody; induction l as [| a l IH]; simpl.
  - apply keepsStore_ret.
  - apply keepsStore_bind; [apply Hbody | intros _; exact IH].
Qed.

Lemma keepsStore_emit : forall e, keepsStore (emit e).
Proof. intros e s; split; reflexivity. Qed.

Lemma keepsStore_deliver :
  forall user content to shared, keepsStore (deliver user content to shared).
Proof. intros user content to shared s; split; reflexivity. Qed.

Lemma keepsStore_usersRepository_decrement :
  forall i c n, keepsStore (usersRepository_decrement i c n).
Proof. intros i c n s; split; reflexivity. Qed.

Lemma keepsStore_usersRepository_update :
  forall i a b, keepsStore (usersRepository_update i a b).
Proof. intros i a b s; split; reflexivity. Qed.

Lemma keepsStore_usersRepository_findOneBy :
  forall i, keepsStore (usersRepository_findOneBy i).
Proof. intros i; apply keepsStore_gets. Qed.

Lemma keepsStore_countNonMovedFollowees :
  forall i, keepsStore (countNonMovedFollowees i).
Proof. intros i; apply keepsStore_gets. Qed.

Lemma keepsStore_countNonMovedFollowers :
  forall i, keepsStore (countNonMovedFollowers i).
Proof. intros i; apply keepsStore_gets. Qed.

Create HintDb store.
#[local] Hint Resolve keepsStore_ret keepsStore_throw keepsStore_gets
  keepsStore_bind keepsStore_if keepsStore_detached keepsStore_forEach
  keepsStore_emit keepsStore_deliver keepsStore_usersRepository_decrement
  keepsStore_usersRepository_update keepsStore_usersRepository_findOneBy
  keepsStore_countNonMovedFollowees keepsStore_countNonMovedFollowers : store.

Lemma decrementFollowing_keepsStore :
  forall follower followee, keepsStore (decrementFollowing follower followee).
Proof.
  intros follower followee; unfold decrementFollowing.
  auto 12 with store.
Qed.

Lemma publishUnfollow_keepsStore :
  forall followeeId follower, keepsStore (publishUnfollow followeeId follower).
Proof.
  intros followeeId follower; unfold publishUnfollow, deliverWebhooks.
  auto 8 with store.
Qed.

#[local] Hint Resolve decrementFollowing_keepsStore publishUnfollow_keepsStore
  : store.

(** [removeFollow] deletes rows of the edge table at most. *)
Lemma removeFollow_shrinks :
  forall followeeId followerId s,
    shrinks s (snd (removeFollow followeeId followerId s)).
Proof.
  intros followeeId followerId s; unfold removeFollow.
  unfold followingsRepository_findOneBy, usersRepository_findOneBy,
    followingsRepository_delete.
  unfold_service.
  destruct (find _ (followingsRepository s)) as [following |];
    [| apply shrinks_refl].
  destruct (find _ (usersRepository s)) as [followee |]; cbv beta iota;
    [| apply shrinks_refl].
  destruct (find _ (usersRepository s)) as [follower |]; cbv beta iota;
    [| apply shrinks_refl].
  simpl snd.
  eapply shrinks_trans;
    [| apply sameStore_shrinks; apply decrementFollowing_keepsStore].
  split; [exists (fun _ => true); simpl; symmetry; apply filter_all
         | eexists; reflexivity].
Qed.

Lemma rejectFollow_shrinks :
  forall channel follower s, shrinks s (snd (rejectFollow channel follower s)).
Proof.
  intros channel follower s; unfold rejectFollow, bind.
  pose proof (removeFollow_shrinks (Channel.id channel) (User.id follower) s)
    as Hremove.
  destruct (removeFollow _ _ s) as [[[] | e] s1]; simpl in *;
    [| exact Hremove].
  eapply shrinks_trans; [exact Hremove | apply sameStore_shrinks].
  destruct (isLocalUser follower);
    [apply keepsStore_detached; apply publishUnfollow_keepsStore
    | apply keepsStore_ret].
Qed.

(** Each of the eight operations removes rows from the two tables at most;
    none adds a row. *)
Lemma run_shrinks :
  forall vaka race op s, shrinks s (snd (run vaka race op s)).
Proof.
  intros vaka race op s; destruct op; unfold run.
  - apply follow_shrinks.
  - rewrite unfollow_rejects; apply shrinks_refl.
  - apply sameStore_shrinks; apply createFollowRequest_keepsStore.
  - apply cancelFollowRequest_throws_TypeError.
  - apply shrinks_refl.
  - apply shrinks_refl.
  - apply shrinks_refl.
  - apply rejectFollow_shrinks.
Qed.

Lemma runAll_shrinks :
  forall vaka race ops s, shrinks s (runAll vaka race ops s).
Proof.
  intros vaka race ops; induction ops as [| op ops IH]; intros s; simpl.
  - apply shrinks_refl.
  - eapply shrinks_trans; [apply run_shrinks | apply IH].
Qed.

(** C1: from a state in which no ordered pair has both a pending request
    and an edge, any sequence of the eight operations (follow, unfollow,
    createFollowRequest, cancelFollowRequest, acceptFollowRequest,
    acceptAllFollowRequests, rejectFollowRequest, rejectFollow), whether a
    call returns or throws, ends in a state in which again no ordered pair
    has both. *)
Theorem operations_keep_request_and_edge_exclusive :
  forall vaka race (ops : list Operation) (s : State),
    exclusive s -> exclusive (runAll vaka race ops s).
Proof.
  intros vaka race ops s Hex.
  apply (shrinks_exclusive s); [apply runAll_shrinks | exact Hex].
Qed.

Lemma exclusive_without_requests :
  forall s, channelFollowRequestsRepository s = [] -> exclusive s.
Proof.
  intros s Hempty follower followee; unfold hasRequest.
  rewrite Hempty; reflexivity.
Qed.

(** From a store without requests the operations never lead to a state in
    which a pair has both. *)
Corollary reachable_states_exclusive :
  forall vaka race (ops : list Operation) (s : State),
    channelFollowRequestsRepository s = [] ->
    exclusive (runAll vaka race ops s).
Proof.
  intros vaka race ops s Hempty.
  apply (shrinks_exclusive s);
    [apply runAll_shrinks | apply exclusive_without_requests; exact Hempty].
Qed.

Lemma operations_keep_request_and_edge_exclusive_witness :
  exclusive
    (runAll Sample.noAlsoKnownAs Sample.userFirst
       [RejectFollowRequest Sample.lounge Sample.bob;
        Follow "bob" "lounge" None false;
        RejectFollow Sample.lounge Sample.alice]
       Sample.mixed).
Proof.
  apply operations_keep_request_and_edge_exclusive.
  intros follower followee.
  unfold hasRequest, hasEdge, matchesRequest, matchesFollowing.
  cbn -[String.eqb].
  destruct (String.eqb_spec "bob" follower) as [<- |].
  - simpl; apply andb_false_r.
  - rewrite andb_false_r; reflexivity.
Defined.

(** ** [insertFollowingDoc] *)

Lemma find_app_hit :
  forall (A : Type) (p : A -> bool) (l : list A) (x : A),
    p x = true -> isSome (find p (l ++ [x])) = true.
Proof.
  intros A p l x Hx; induction l as [| a l IH]; simpl.
  - rewrite Hx; reflexivity.
  - destruct (p a); [reflexivity | exact IH].
Qed.

Lemma filter_app_miss :
  forall (A : Type) (q : A -> bool) (l : list A) (x : A),
    q x = false -> filter q (l ++ [x]) = filter q l.
Proof.
  intros A q l x Hx; rewrite filter_app; simpl; rewrite Hx.
  apply app_nil_r.
Qed.

Lemma existsb_filter_negb :
  forall (A : Type) (p : A -> bool) (l : list A),
    existsb p (filter (fun x => negb (p x)) l) = false.
Proof.
  intros A p l; induction l as [| a l IH]; simpl; [reflexivity |].
  destruct (p a) eqn:Hpa; simpl; [| rewrite Hpa]; exact IH.
Qed.

Lemma existsb_isSome_find :
  forall (A : Type) (p : A -> bool) (l : list A),
    isSome (find p l) = existsb p l.
Proof.
  intros A p l; induction l as [| a l IH]; simpl; [reflexivity |].
  destruct (p a); [reflexivity | exact IH].
Qed.

Lemma matchesRequest_refl :
  forall i channelId followerId requestId,
    matchesRequest channelId followerId
      (ChannelFollowRequest.mk i channelId followerId requestId) = true.
Proof.
  intros i channelId followerId requestId; unfold matchesRequest; simpl.
  rewrite !String.eqb_refl; reflexivity.
Qed.

Ltac unfold_insertFollowingDoc :=
  unfold insertFollowingDoc, genId, channelFollowRequestsRepository_insert,
    channelFollowRequestsRepository_findOneBy,
    channelFollowRequestsRepository_delete;
  unfold_service.

(** The private [insertFollowingDoc] adds no row that outlives the call
    either: the row it inserts matches the lookup that follows and is
    deleted with every other row of the pair. *)
Lemma insertFollowingDoc_shrinks :
  forall channel follower silent s,
    shrinks s (snd (insertFollowingDoc channel follower silent s)).
Proof.
  intros channel follower silent s; unfold_insertFollowingDoc.
  destruct (Channel.user channel) as [owner |]; cbv beta iota;
    [| apply shrinks_refl].
  destruct (String.eqb _ _); [apply shrinks_refl |].
  simpl.
  destruct (violatesUnique _ _) eqn:Hdup; simpl.
  - destruct (isRemoteUser follower); simpl;
      [| apply shrinks_of_eq; reflexivity].
    destruct (find _ _); simpl; [| apply shrinks_of_eq; reflexivity].
    split; [eexists; reflexivity
           | exists (fun _ => true); symmetry; apply filter_all].
  - rewrite find_app_hit by apply matchesRequest_refl; simpl.
    split; simpl.
    + rewrite filter_app_miss
        by (rewrite matchesRequest_refl; reflexivity).
      eexists; reflexivity.
    + exists (fun _ => true); symmetry; apply filter_all.
Qed.

(** [insertFollowingDoc] on a conflict with a remote follower: with the
    channel's owner loaded and a row for the pair stored, the insert is
    refused, the error is absorbed and nothing is emitted; the lookup of
    lines 195-198 then finds the stored row and lines 201-204 delete it, so
    that no row is left for the pair. *)
Lemma insertFollowingDoc_duplicate_remote :
  forall channel owner follower silent s,
    Channel.user channel = Some owner ->
    String.eqb (User.id follower) (User.id owner) = false ->
    isRemoteUser follower = true ->
    hasRequest s (User.id follower) (Channel.id channel) = true ->
    fst (insertFollowingDoc channel follower silent s) = Ok tt
    /\ hasRequest (snd (insertFollowingDoc channel follower silent s))
         (User.id follower) (Channel.id channel) = false
    /\ effects (snd (insertFollowingDoc channel follower silent s))
       = effects s.
Proof.
  intros channel owner follower silent s Howner Hself Hremote Hstored.
  unfold hasRequest in *; unfold_insertFollowingDoc.
  rewrite Howner; cbv beta iota; rewrite Hself; simpl.
  assert (Hdup : forall i r,
            violatesUnique
              (ChannelFollowRequest.mk i (Channel.id channel)
                 (User.id follower) r)
              (channelFollowRequestsRepository s) = true).
  { intros i r; unfold violatesUnique; simpl.
    apply existsb_exists in Hstored; destruct Hstored as [row [Hin Hrow]].
    apply existsb_exists; exists row; split; [assumption |].
    rewrite Hrow; apply orb_true_r. }
  rewrite Hdup; simpl; rewrite Hremote; simpl.
  rewrite existsb_isSome_find, Hstored; simpl.
  repeat split; apply existsb_filter_negb.
Qed.

(** The stored row of (bob, lounge) and a repeated insert for remote bob:
    the call returns, emits nothing, and the table is left empty. *)
Example insertFollowingDoc_duplicate_sample :
  fst (insertFollowingDoc Sample.loungeLoaded Sample.bob false
         Sample.bobStored) = Ok tt
  /\ channelFollowRequestsRepository
       (snd (insertFollowingDoc Sample.loungeLoaded Sample.bob false
               Sample.bobStored)) = []
  /\ followingsRepository
       (snd (insertFollowingDoc Sample.loungeLoaded Sample.bob false
               Sample.bobStored)) = []
  /\ effects
       (snd (insertFollowingDoc Sample.loungeLoaded Sample.bob false
               Sample.bobStored)) = [].
Proof. repeat split. Qed.

(** ** The counter reconciler *)

Lemma countEdges_filter :
  forall (p : Following.t -> bool) (edges : list Following.t),
    countEdges p edges = Z.of_nat (length (filter p edges)).
Proof.
  intros p edges; induction edges as [| e edges IH]; simpl; [reflexivity |].
  rewrite IH; destruct (p e); simpl length; lia.
Qed.

Lemma IsNull_joinedMovedToUri :
  forall s i,
    IsNull (joinedMovedToUri (usersRepository s) i) = counterpartNotMoved s i.
Proof.
  intros s i; unfold joinedMovedToUri, counterpartNotMoved, findUser.
  destruct (find _ (usersRepository s)) as [u |]; [| reflexivity].
  destruct (User.movedToUri u); reflexivity.
Qed.

(** The two count queries of lines 355-376 answer the brute-force counts. *)
Lemma countNonMovedFollowees_brute :
  forall i s, countNonMovedFollowees i s = (Ok (bruteFollowingCount s i), s).
Proof.
  intros i s; unfold countNonMovedFollowees, gets, bruteFollowingCount.
  rewrite countEdges_filter; do 4 f_equal.
  apply filter_ext; intros e; rewrite IsNull_joinedMovedToUri; reflexivity.
Qed.

Lemma countNonMovedFollowers_brute :
  forall i s, countNonMovedFollowers i s = (Ok (bruteFollowersCount s i), s).
Proof.
  intros i s; unfold countNonMovedFollowers, gets, bruteFollowersCount.
  rewrite countEdges_filter; do 4 f_equal.
  apply filter_ext; intros e; rewrite IsNull_joinedMovedToUri; reflexivity.
Qed.

Lemma fastPath_updates :
  forall follower followee users,
    updateWhereId (User.id followee) (decrementColumn FollowersCount 1)
      (updateWhereId (User.id follower) (decrementColumn FollowingCount 1)
         users)
    = map (fastPath follower followee) users.
Proof.
  intros follower followee users; unfold updateWhereId.
  rewrite map_map; apply map_ext; intros u; unfold fastPath.
  destruct (String.eqb (User.id u) (User.id follower)) eqn:Hfr; simpl;
    destruct (String.eqb (User.id u) (User.id followee)) eqn:Hfe;
    destruct u; reflexivity.
Qed.

Lemma recount_update :
  forall s (user : User.t) users,
    updateWhereId (User.id user)
      (fun u =>
         User.set_followersCount (bruteFollowersCount s (User.id user))
           (User.set_followingCount (bruteFollowingCount s (User.id user)) u))
      users
    = map (fun u => if String.eqb (User.id u) (User.id user)
                    then recount s u else u) users.
Proof.
  intros s user users; unfold updateWhereId; apply map_ext; intros u.
  destruct (String.eqb_spec (User.id u) (User.id user)) as [Heq |];
    [| reflexivity].
  unfold recount; rewrite Heq; reflexivity.
Qed.


(** The recount on the sample table: carol follows dave and is followed by
    dave, the only two of her five edges whose counterpart has a null
    [movedToUri]. *)
Example decrementFollowing_recount_sample :
  usersRepository
    (snd (decrementFollowing Sample.carol Sample.moved Sample.counters))
  = [Sample.blank;
     User.mk "carol" None None None None None false false 1 1;
     Sample.moved; Sample.dave].
Proof. reflexivity. Qed.

(** A [movedToUri] is a URI or null.  Were a row to hold the empty string,
    the test of line 323 would find it falsy where the count queries of
    lines 362 and 373 find it not null: the fast path would run for such a
    follower. *)
Example decrementFollowing_empty_movedToUri_sample :
  usersRepository
    (snd (decrementFollowing Sample.blank Sample.carol Sample.counters))
  = [User.mk "blank" None None None None (Some "") false false 4 5;
     User.mk "carol" None None None None None false false 7 6;
     Sample.moved; Sample.dave].
Proof. reflexivity. Qed.

(** An edge removal through [rejectFollow] reaches the reconciler once the
    row is deleted: [removeFollow] finds the edge, loads both users, deletes
    the row and hands the two users to [decrementFollowing]. *)
Lemma removeFollow_reconciles :
  forall followeeId followerId s following followee follower,
    find (matchesFollowing followerId followeeId) (followingsRepository s)
    = Some following ->
    findUser s (Following.followeeId following) = Some followee ->
    findUser s (Following.followerId following) = Some follower ->
    removeFollow followeeId followerId s
    = (Ok tt,
       snd (decrementFollowing follower followee
              (set_followings
                 (filter (fun f =>
                    negb (String.eqb (Following.id f)
                            (Following.id following)))) s))).
Proof.
  intros followeeId followerId s following followee follower Hedge Hfe Hfr.
  unfold findUser in *; unfold removeFollow.
  unfold followingsRepository_findOneBy, usersRepository_findOneBy,
    followingsRepository_delete.
  unfold_service; rewrite Hedge, Hfe, Hfr; reflexivity.
Qed.

(** The reconciler does not touch the edge set it counts over. *)
Lemma decrementFollowing_keeps_edges :
  forall follower followee s,
    followingsRepository (snd (decrementFollowing follower followee s))
    = followingsRepository s.
Proof.
  intros follower followee s.
  apply (decrementFollowing_keepsStore follower followee s).
Qed.

(** [rejectFollow] on the stored edge alice -> lounge: the row is deleted
    and the fast path takes one off alice's [followingCount] and one off the
    followee's [followersCount]. *)
Example rejectFollow_sample :
  followingsRepository
    (snd (rejectFollow Sample.lounge Sample.alice Sample.withEdge)) = []
  /\ usersRepository
       (snd (rejectFollow Sample.lounge Sample.alice Sample.withEdge))
     = [User.mk "alice" None None None None None false false (-1) 0;
        Sample.bob; Sample.owner;
        User.mk "lounge" None None None None None false false 0 (-1)].
Proof. repeat split. Qed.

(** * Further properties of the service *)

(** ** [follow]: lookups and the block table *)

Lemma pairEqb_eq :
  forall p q : Id * Id, pairEqb p q = true <-> p = q.
Proof.
  intros [a b] [c d]; unfold pairEqb; simpl.
  rewrite andb_true_iff, !String.eqb_eq; split.
  - intros [-> ->]; reflexivity.
  - intros H; inversion H; auto.
Qed.

Lemma blocks_after_unblock :
  forall s blocker blockee a b,
    blocks (set_blockings
              (filter (fun p => negb (pairEqb (blocker, blockee) p))) s) a b
    = blocks s a b && negb (pairEqb (blocker, blockee) (a, b)).
Proof.
  intros s blocker blockee a b; unfold blocks; simpl.
  induction (blockings s) as [| p l IH]; simpl; [reflexivity |].
  destruct (pairEqb (blocker, blockee) p) eqn:Hp; simpl; rewrite IH.
  - apply pairEqb_eq in Hp; subst p.
    destruct (pairEqb (a, b) (blocker, blockee)) eqn:Hab; simpl;
      [| reflexivity].
    apply pairEqb_eq in Hab; inversion Hab; subst.
    assert (Hrefl : pairEqb (blocker, blockee) (blocker, blockee) = true)
      by (apply pairEqb_eq; reflexivity).
    rewrite Hrefl; simpl; rewrite andb_false_r; reflexivity.
  - destruct (pairEqb (a, b) p) eqn:Hab; simpl; [| reflexivity].
    apply pairEqb_eq in Hab; subst p; rewrite Hp; reflexivity.
Qed.

(** X1: [follow] starts with the two lookups of lines 88-91, issued
    together.  When the follower is not stored and the channel is, it
    throws EntityNotFoundError for the user; when the follower is stored
    and the channel is not, EntityNotFoundError for the channel; when
    neither is stored, one of the two, whichever lookup settles first.  In
    each case no block is checked and nothing is written. *)
Theorem follow_unknown_follower_or_channel :
  forall vaka race _follower _channel requestId silent s,
    (findUser s _follower = None -> findChannel s _channel <> None ->
     follow vaka race _follower _channel requestId silent s
     = (Throw (EntityNotFoundError "User"), s))
    /\ (findUser s _follower <> None -> findChannel s _channel = None ->
        follow vaka race _follower _channel requestId silent s
        = (Throw (EntityNotFoundError "Channel"), s))
    /\ (findUser s _follower = None -> findChannel s _channel = None ->
        follow vaka race _follower _channel requestId silent s
        = (Throw (EntityNotFoundError "User"), s)
        \/ follow vaka race _follower _channel requestId silent s
           = (Throw (EntityNotFoundError "Channel"), s)).
Proof.
  intros vaka race f c r silent s; unfold findUser, findChannel.
  split; [| split].
  - intros Hu Hc; unfold_follow; rewrite Hu.
    destruct (find _ (channelRepository s)); [reflexivity | congruence].
  - intros Hu Hc; unfold_follow.
    destruct (find _ (usersRepository s)); [| congruence].
    rewrite Hc; reflexivity.
  - intros Hu Hc; unfold_follow; rewrite Hu, Hc; simpl.
    destruct (race s); [left | right]; reflexivity.
Qed.

Lemma follow_unknown_follower_or_channel_witness :
  follow Sample.noAlsoKnownAs Sample.userFirst "nobody" "lounge" None false
    Sample.base
  = (Throw (EntityNotFoundError "User"), Sample.base)
  /\ follow Sample.noAlsoKnownAs Sample.userFirst "alice" "nowhere" None false
       Sample.base
     = (Throw (EntityNotFoundError "Channel"), Sample.base).
Proof.
  split.
  - apply (proj1 (follow_unknown_follower_or_channel Sample.noAlsoKnownAs
                    Sample.userFirst "nobody" "lounge" None false
                    Sample.base)).
    + reflexivity.
    + discriminate.
  - apply (proj1 (proj2 (follow_unknown_follower_or_channel
                           Sample.noAlsoKnownAs Sample.userFirst "alice"
                           "nowhere" None false Sample.base))).
    + discriminate.
    + reflexivity.
Defined.

(** X2: a stored remote follower who blocks a stored channel that does not
    block it: [follow] removes that block (line 106) and then throws the
    ReferenceError of line 113.  The removal outlives the throw: afterwards
    the follower no longer blocks the channel, and every other block is as
    it was. *)
Theorem follow_remote_blocking_unblocks :
  forall vaka race _follower _channel requestId silent s follower channel,
    findUser s _follower = Some follower ->
    findChannel s _channel = Some channel ->
    isRemoteUser follower = true ->
    blocks s (Channel.id channel) (User.id follower) = false ->
    blocks s (User.id follower) (Channel.id channel) = true ->
    let s' := snd (follow vaka race _follower _channel requestId silent s) in
    fst (follow vaka race _follower _channel requestId silent s)
    = Throw (ReferenceError "followee")
    /\ blocks s' (User.id follower) (Channel.id channel) = false
    /\ (forall a b,
          (a, b) <> (User.id follower, Channel.id channel) ->
          blocks s' a b = blocks s a b).
Proof.
  intros vaka race f c r silent s follower channel Hu Hc Hremote Hblocked Hblocking.
  unfold findUser in Hu; unfold findChannel in Hc.
  assert (Hrun : follow vaka race f c r silent s
                 = (Throw (ReferenceError "followee"),
                    set_blockings
                      (filter (fun p =>
                         negb (pairEqb (User.id follower, Channel.id channel)
                                 p))) s)).
  { unfold blocks in *; unfold_follow; rewrite Hu, Hc; simpl.
    rewrite Hremote, Hblocked, Hblocking; reflexivity. }
  rewrite Hrun; simpl; split; [reflexivity | split].
  - rewrite blocks_after_unblock.
    assert (Hrefl : pairEqb (User.id follower, Channel.id channel)
                      (User.id follower, Channel.id channel) = true)
      by (apply pairEqb_eq; reflexivity).
    rewrite Hrefl; apply andb_false_r.
  - intros a b Hother; rewrite blocks_after_unblock.
    destruct (pairEqb (User.id follower, Channel.id channel) (a, b)) eqn:Hp.
    + apply pairEqb_eq in Hp; congruence.
    + apply andb_true_r.
Qed.

Lemma follow_remote_blocking_unblocks_witness :
  fst (follow Sample.noAlsoKnownAs Sample.userFirst
        "bob" "lounge" None false Fixture.bobBlocks)
  = Throw (ReferenceError "followee")
  /\ blocks
       (snd (follow Sample.noAlsoKnownAs Sample.userFirst
             "bob" "lounge" None false
               Fixture.bobBlocks)) "bob" "lounge" = false
  /\ (forall a b,
        (a, b) <> ("bob", "lounge") ->
        blocks
          (snd (follow Sample.noAlsoKnownAs Sample.userFirst
                "bob" "lounge" None false
                  Fixture.bobBlocks)) a b
        = blocks Fixture.bobBlocks a b).
Proof.
  apply (follow_remote_blocking_unblocks Sample.noAlsoKnownAs Sample.userFirst
        "bob" "lounge"
           None false Fixture.bobBlocks Sample.bob Sample.lounge);
    reflexivity.
Defined.

Lemma sameButBlockings_refl : forall s, sameButBlockings s s.
Proof. intros s; unfold sameButBlockings; destruct s; reflexivity. Qed.

Lemma sameButBlockings_set :
  forall f s, sameButBlockings s (set_blockings f s).
Proof. intros f s; unfold sameButBlockings; destruct s; reflexivity. Qed.

(** X3: whatever its arguments and the state, [follow] never returns
    normally, writes to none of its repositories and queues no delivery:
    the only change it can leave behind is the one of
    [userBlockingService.unblock], and no pair is blocked afterwards that
    was not blocked before. *)
Theorem follow_throws_and_writes_only_unblock :
  forall vaka race _follower _channel requestId silent s,
    (exists e,
       fst (follow vaka race _follower _channel requestId silent s) = Throw e)
    /\ sameButBlockings s
         (snd (follow vaka race _follower _channel requestId silent s))
    /\ (forall a b,
          blocks
            (snd (follow vaka race _follower _channel requestId silent s))
            a b = true ->
          blocks s a b = true).
Proof.
  intros vaka race f c r silent s; unfold_follow.
  destruct (find _ (usersRepository s)) as [follower |];
    destruct (find _ (channelRepository s)) as [channel |]; simpl;
    split_tests; simpl;
    (split; [eexists; reflexivity | split]);
    try apply sameButBlockings_refl; try apply sameButBlockings_set;
    try (intros a b Hab; exact Hab);
    intros a b Hab; rewrite blocks_after_unblock in Hab;
    apply andb_true_iff in Hab; tauto.
Qed.

(** ** [createFollowRequest] *)

(** X4: [createFollowRequest] never writes: on every input the state it
    leaves is the state it was given.  It returns normally exactly when the
    two ids are equal (the self-request guard of line 397); in every other
    case it throws. *)
Theorem createFollowRequest_never_writes :
  forall follower followee requestId s,
    snd (createFollowRequest follower followee requestId s) = s
    /\ (fst (createFollowRequest follower followee requestId s) = Ok tt
        <-> User.id follower = User.id followee).
Proof.
  intros follower followee r s; unfold createFollowRequest, checkBlocked.
  destruct (String.eqb_spec (User.id follower) (User.id followee)) as [Heq | Hne].
  - split; [reflexivity | tauto].
  - unfold_service; split_tests; simpl;
      (split; [reflexivity | split; [discriminate | contradiction]]).
Qed.

(** X5: for two different ids with a block in either direction,
    [createFollowRequest] throws a plain [Error] whose message is "blocking"
    when the follower blocks the followee and "blocked" otherwise, before it
    touches any repository; the follower's own block is reported first when
    both exist. *)
Theorem createFollowRequest_block_raises :
  forall follower followee requestId s,
    User.id follower <> User.id followee ->
    blocks s (User.id follower) (User.id followee)
    || blocks s (User.id followee) (User.id follower) = true ->
    createFollowRequest follower followee requestId s
    = (Throw (PlainError
                (if blocks s (User.id follower) (User.id followee)
                 then "blocking" else "blocked")), s).
Proof.
  intros follower followee r s Hne Hblock.
  unfold blocks in *; unfold createFollowRequest, checkBlocked.
  destruct (String.eqb_spec (User.id follower) (User.id followee));
    [contradiction |].
  unfold_service.
  destruct (existsb _ (blockings s)); [reflexivity |].
  simpl in Hblock; rewrite Hblock; reflexivity.
Qed.

Lemma createFollowRequest_block_raises_witness :
  createFollowRequest Sample.alice Fixture.loungeOne None Fixture.mutual
  = (Throw (PlainError "blocking"), Fixture.mutual).
Proof.
  apply (createFollowRequest_block_raises Sample.alice Fixture.loungeOne None
           Fixture.mutual); [discriminate | reflexivity].
Defined.

(** ** [cancelFollowRequest] *)

(** X6: [cancelFollowRequest] always ends in the TypeError of line 462, and
    the Undo of lines 454-460 is queued before that: when the followee is
    remote and the follower local, exactly one job, the Undo(Follow)
    addressed to the followee's inbox, has been appended to the deliver
    queue; in every other case nothing was written.  No request row is
    read or deleted. *)
Theorem cancelFollowRequest_delivers_then_throws :
  forall followee follower s,
    cancelFollowRequest followee follower s
    = (Throw (TypeError "findOneBy"),
       if isRemoteUser followee && isLocalUser follower
       then set_deliverQueue
              (fun q => q ++ [undoFollowJob follower followee]) s
       else s).
Proof.
  intros followee follower s; unfold cancelFollowRequest, deliver.
  unfold_service.
  destruct (isRemoteUser followee), (isLocalUser follower); reflexivity.
Qed.

(** alice cancels her request to a remote account: the Undo is queued, then
    the call throws. *)
Example cancelFollowRequest_sample :
  fst (cancelFollowRequest Fixture.remoteCarol Sample.alice Sample.base)
  = Throw (TypeError "findOneBy")
  /\ deliverQueue
       (snd (cancelFollowRequest Fixture.remoteCarol Sample.alice Sample.base))
     = [mkDeliverJob "alice"
          (addContext
             (renderUndo (renderFollow "alice" "carol" None) "alice"))
          (Some "https://remote.example/inbox") false].
Proof. split; reflexivity. Qed.

(** ** [publishUnfollow] *)

Lemma set_effects_app :
  forall s (l1 l2 : list Effect),
    set_effects (fun l => l ++ l2) (set_effects (fun l => l ++ l1) s)
    = set_effects (fun l => l ++ l1 ++ l2) s.
Proof.
  intros s l1 l2; unfold set_effects; simpl.
  rewrite <- app_assoc; reflexivity.
Qed.

Lemma set_effects_nil : forall s, set_effects (fun l => l ++ []) s = s.
Proof.
  intros s; unfold set_effects; rewrite app_nil_r; destruct s; reflexivity.
Qed.

Lemma forEach_emit :
  forall (A : Type) (g : A -> Effect) (l : list A) (s : State),
    forEach l (fun x => emit (g x)) s
    = (Ok tt, set_effects (fun e => e ++ map g l) s).
Proof.
  intros A g l; induction l as [| a l IH]; intros s; simpl.
  - unfold ret; rewrite set_effects_nil; reflexivity.
  - unfold bind, emit at 1, modify; rewrite IH.
    rewrite set_effects_app; reflexivity.
Qed.

Lemma publishUnfollow_state :
  forall followeeId follower s,
    publishUnfollow followeeId follower s
    = (Ok tt,
       set_effects (fun l => l ++ unfollowEffects s followeeId follower) s).
Proof.
  intros followeeId follower s.
  unfold publishUnfollow, deliverWebhooks, unfollowEffects, unfollowWebhooks.
  unfold bind at 1, emit at 1, modify, bind, gets; simpl.
  rewrite forEach_emit, set_effects_app; reflexivity.
Qed.

Lemma unfollowWebhooks_spec :
  forall s followerId w,
    In w (unfollowWebhooks s followerId)
    <-> In w (activeWebhooks s)
        /\ Webhook.userId w = followerId
        /\ In "unfollow" (Webhook.on w).
Proof.
  intros s followerId w; unfold unfollowWebhooks.
  rewrite filter_In, andb_true_iff, String.eqb_eq, existsb_exists; split.
  - intros [Hin [Hid [x [Hx Heq]]]]; apply String.eqb_eq in Heq; subst x.
    auto.
  - intros [Hin [Hid Hon]]; repeat split; auto.
    exists "unfollow"; split; [assumption | apply String.eqb_refl].
Qed.

(** X7: [publishUnfollow] calls no webhook but the follower's own: every
    webhook delivery found in the recorded effects after the call was there
    before, or is an "unfollow" delivery for an active webhook whose
    [userId] is the follower's id and whose [on] lists "unfollow". *)
Theorem publishUnfollow_calls_follower_webhooks :
  forall followeeId follower s w name payload,
    In (webhookDeliver w name payload)
      (effects (snd (publishUnfollow followeeId follower s))) ->
    In (webhookDeliver w name payload) (effects s)
    \/ (name = "unfollow"
        /\ In w (activeWebhooks s)
        /\ Webhook.userId w = User.id follower
        /\ In "unfollow" (Webhook.on w)).
Proof.
  intros followeeId follower s w name payload.
  rewrite publishUnfollow_state; simpl; unfold unfollowEffects.
  rewrite in_app_iff; intros [Hold | Hnew]; [left; exact Hold | right].
  simpl in Hnew; destruct Hnew as [Hmain | Hhook]; [discriminate |].
  apply in_map_iff in Hhook; destruct Hhook as [w' [Heq Hin]].
  inversion Heq; subst.
  apply unfollowWebhooks_spec in Hin; tauto.
Qed.

Lemma publishUnfollow_calls_follower_webhooks_witness :
  In (webhookDeliver Fixture.hookAlice "unfollow"
        (mkPacked "lounge" "alice" true))
    (effects Fixture.agreed)
  \/ ("unfollow" = "unfollow"
      /\ In Fixture.hookAlice (activeWebhooks Fixture.agreed)
      /\ Webhook.userId Fixture.hookAlice = User.id Fixture.aliceOne
      /\ In "unfollow" (Webhook.on Fixture.hookAlice)).
Proof.
  apply (publishUnfollow_calls_follower_webhooks "lounge" Fixture.aliceOne
           Fixture.agreed Fixture.hookAlice "unfollow"
           (mkPacked "lounge" "alice" true)).
  simpl; tauto.
Defined.

(** ** [removeFollow] and [rejectFollow] *)

Lemma existsb_false_find :
  forall (A : Type) (p : A -> bool) (l : list A),
    existsb p l = false -> find p l = None.
Proof.
  intros A p l H; rewrite <- existsb_isSome_find in H.
  destruct (find p l); [discriminate | reflexivity].
Qed.

Ltac unfold_removeFollow :=
  unfold removeFollow, followingsRepository_findOneBy,
    usersRepository_findOneBy, followingsRepository_delete;
  unfold_service.

Lemma removeFollow_returns :
  forall followeeId followerId s,
    fst (removeFollow followeeId followerId s) = Ok tt.
Proof.
  intros followeeId followerId s; unfold_removeFollow.
  destruct (find _ (followingsRepository s)); [| reflexivity].
  destruct (find _ (usersRepository s)); cbv beta iota; [| reflexivity].
  destruct (find _ (usersRepository s)); reflexivity.
Qed.

Lemma removeFollow_without_edge :
  forall followeeId followerId s,
    hasEdge s followerId followeeId = false ->
    removeFollow followeeId followerId s = (Ok tt, s).
Proof.
  intros followeeId followerId s Hedge; unfold hasEdge in Hedge.
  apply existsb_false_find in Hedge.
  unfold_removeFollow; rewrite Hedge; reflexivity.
Qed.

(** What [rejectFollow] adds once [removeFollow] has run. *)
Lemma rejectFollow_state :
  forall channel follower s,
    rejectFollow channel follower s
    = (Ok tt,
       let s1 := snd (removeFollow (Channel.id channel) (User.id follower) s) in
       if isLocalUser follower
       then set_effects
              (fun l => l ++ unfollowEffects s1 (Channel.id channel) follower)
              s1
       else s1).
Proof.
  intros channel follower s; unfold rejectFollow, bind.
  pose proof (removeFollow_returns (Channel.id channel) (User.id follower) s)
    as Hret.
  destruct (removeFollow _ _ s) as [r s1]; simpl in *; subst r.
  destruct (isLocalUser follower); [| reflexivity].
  unfold detached; rewrite publishUnfollow_state; reflexivity.
Qed.

Lemma rejectFollow_tables :
  forall channel follower s,
    followingsRepository (snd (rejectFollow channel follower s))
    = followingsRepository
        (snd (removeFollow (Channel.id channel) (User.id follower) s))
    /\ usersRepository (snd (rejectFollow channel follower s))
       = usersRepository
           (snd (removeFollow (Channel.id channel) (User.id follower) s)).
Proof.
  intros channel follower s; rewrite rejectFollow_state; simpl.
  destruct (isLocalUser follower); split; reflexivity.
Qed.

(** X8: [rejectFollow] never throws, whatever the state: a missing edge and
    a relation that does not load end in a normal return as a removal does,
    and neither the reconciler nor the publication is awaited. *)
Theorem rejectFollow_never_throws :
  forall channel follower s,
    fst (rejectFollow channel follower s) = Ok tt.
Proof.
  intros channel follower s; rewrite rejectFollow_state; reflexivity.
Qed.

(** X9: with no edge stored for the pair, [rejectFollow] returns normally
    and changes no table: users and their counters, edges, requests, blocks
    and the deliver queue are as before, and for a remote follower the whole
    state is. *)
Theorem rejectFollow_without_edge_changes_no_table :
  forall channel follower s,
    hasEdge s (User.id follower) (Channel.id channel) = false ->
    let s' := snd (rejectFollow channel follower s) in
    fst (rejectFollow channel follower s) = Ok tt
    /\ usersRepository s' = usersRepository s
    /\ followingsRepository s' = followingsRepository s
    /\ channelFollowRequestsRepository s' = channelFollowRequestsRepository s
    /\ blockings s' = blockings s
    /\ deliverQueue s' = deliverQueue s
    /\ (isLocalUser follower = false -> s' = s).
Proof.
  intros channel follower s Hedge; cbv zeta; rewrite rejectFollow_state.
  rewrite (removeFollow_without_edge _ _ s Hedge); simpl.
  destruct (isLocalUser follower); repeat split; discriminate.
Qed.

Lemma rejectFollow_without_edge_changes_no_table_witness :
  fst (rejectFollow Sample.lounge Sample.bob Sample.base) = Ok tt
  /\ usersRepository (snd (rejectFollow Sample.lounge Sample.bob Sample.base))
     = usersRepository Sample.base
  /\ followingsRepository
       (snd (rejectFollow Sample.lounge Sample.bob Sample.base))
     = followingsRepository Sample.base
  /\ channelFollowRequestsRepository
       (snd (rejectFollow Sample.lounge Sample.bob Sample.base))
     = channelFollowRequestsRepository Sample.base
  /\ blockings (snd (rejectFollow Sample.lounge Sample.bob Sample.base))
     = blockings Sample.base
  /\ deliverQueue (snd (rejectFollow Sample.lounge Sample.bob Sample.base))
     = deliverQueue Sample.base
  /\ (isLocalUser Sample.bob = false ->
      snd (rejectFollow Sample.lounge Sample.bob Sample.base) = Sample.base).
Proof.
  apply (rejectFollow_without_edge_changes_no_table Sample.lounge Sample.bob
           Sample.base).
  reflexivity.
Defined.

Lemma find_matchesFollowing :
  forall followerId followeeId edges row,
    find (matchesFollowing followerId followeeId) edges = Some row ->
    In row edges
    /\ Following.followerId row = followerId
    /\ Following.followeeId row = followeeId.
Proof.
  intros followerId followeeId edges row Hfind.
  apply find_some in Hfind; destruct Hfind as [Hin Hmatch].
  unfold matchesFollowing in Hmatch; apply andb_true_iff in Hmatch.
  destruct Hmatch as [H1 H2]; apply String.eqb_eq in H1, H2; auto.
Qed.

(** The edge table once [removeFollow] has found [row] and loaded both
    users. *)
Lemma removeFollow_deletes_row :
  forall followeeId followerId s row followee follower,
    find (matchesFollowing followerId followeeId) (followingsRepository s)
    = Some row ->
    findUser s followeeId = Some followee ->
    findUser s followerId = Some follower ->
    followingsRepository (snd (removeFollow followeeId followerId s))
    = filter (fun f => negb (String.eqb (Following.id f) (Following.id row)))
        (followingsRepository s).
Proof.
  intros followeeId followerId s row followee follower Hedge Hfe Hfr.
  destruct (find_matchesFollowing _ _ _ _ Hedge) as [_ [Hr He]].
  rewrite (removeFollow_reconciles followeeId followerId s row followee
             follower Hedge);
    [| rewrite He; exact Hfe | rewrite Hr; exact Hfr].
  simpl; rewrite decrementFollowing_keeps_edges; reflexivity.
Qed.

Lemma removeFollow_clears_edge :
  forall followeeId followerId s,
    edgePairsUnique s ->
    findUser s followeeId <> None ->
    findUser s followerId <> None ->
    hasEdge (snd (removeFollow followeeId followerId s)) followerId followeeId
    = false.
Proof.
  intros followeeId followerId s Hunique Hfe Hfr.
  destruct (hasEdge s followerId followeeId) eqn:Hedge;
    [| rewrite removeFollow_without_edge; assumption].
  unfold hasEdge in Hedge; rewrite <- existsb_isSome_find in Hedge.
  destruct (find _ (followingsRepository s)) as [row |] eqn:Hfind;
    [clear Hedge | discriminate].
  destruct (findUser s followeeId) as [followee |] eqn:Hfe';
    [| congruence].
  destruct (findUser s followerId) as [follower |] eqn:Hfr';
    [| congruence].
  unfold hasEdge.
  rewrite (removeFollow_deletes_row _ _ _ _ _ _ Hfind Hfe' Hfr').
  destruct (find_matchesFollowing _ _ _ _ Hfind) as [Hin [Hr He]].
  destruct (existsb _ _) eqn:Hleft; [| reflexivity].
  apply existsb_exists in Hleft; destruct Hleft as [r [Hr_in Hr_match]].
  apply filter_In in Hr_in; destruct Hr_in as [Hr_in Hr_id].
  unfold matchesFollowing in Hr_match; apply andb_true_iff in Hr_match.
  destruct Hr_match as [H1 H2]; apply String.eqb_eq in H1, H2.
  assert (r = row) by (apply Hunique; congruence).
  subst r; rewrite String.eqb_refl in Hr_id; discriminate.
Qed.

(** X10: when the edge table holds at most one row per ordered pair and both
    the follower's id and the channel's id name a stored user, no edge for
    the pair is left after [rejectFollow]. *)
Theorem rejectFollow_removes_edge :
  forall channel follower s,
    edgePairsUnique s ->
    findUser s (Channel.id channel) <> None ->
    findUser s (User.id follower) <> None ->
    hasEdge (snd (rejectFollow channel follower s))
      (User.id follower) (Channel.id channel) = false.
Proof.
  intros channel follower s Hunique Hfe Hfr; unfold hasEdge.
  rewrite (proj1 (rejectFollow_tables channel follower s)).
  apply (removeFollow_clears_edge _ _ s Hunique Hfe Hfr).
Qed.

Lemma edgePairsUnique_withEdge : edgePairsUnique Sample.withEdge.
Proof.
  intros r1 r2 H1 H2 _ _; simpl in H1, H2.
  destruct H1 as [<- | []]; destruct H2 as [<- | []]; reflexivity.
Qed.

Lemma rejectFollow_removes_edge_witness :
  hasEdge Sample.withEdge "alice" "lounge" = true
  /\ hasEdge (snd (rejectFollow Sample.lounge Sample.alice Sample.withEdge))
       "alice" "lounge" = false.
Proof.
  split; [reflexivity |].
  apply (rejectFollow_removes_edge Sample.lounge Sample.alice Sample.withEdge).
  - exact edgePairsUnique_withEdge.
  - discriminate.
  - discriminate.
Defined.

(** X11: the relations of the found edge are loaded from the users table;
    when the channel's id, or the follower's id, names no stored user the
    guard of line 580 returns, and [rejectFollow] leaves the stored edge and
    every counter as they were. *)
Theorem rejectFollow_unloaded_relation_keeps_edge :
  forall channel follower s,
    findUser s (Channel.id channel) = None
    \/ findUser s (User.id follower) = None ->
    followingsRepository (snd (rejectFollow channel follower s))
    = followingsRepository s
    /\ usersRepository (snd (rejectFollow channel follower s))
       = usersRepository s.
Proof.
  intros channel follower s Hmissing.
  destruct (rejectFollow_tables channel follower s) as [-> ->].
  assert (Hsame : snd (removeFollow (Channel.id channel) (User.id follower) s)
                  = s).
  { unfold findUser in Hmissing; unfold_removeFollow.
    destruct (find _ (followingsRepository s)) as [row |] eqn:Hfind;
      [| reflexivity].
    destruct (find_matchesFollowing _ _ _ _ Hfind) as [_ [-> ->]].
    destruct Hmissing as [-> | Hfr]; [reflexivity |].
    destruct (find (fun u => String.eqb (User.id u) (Channel.id channel))
                (usersRepository s)); cbv beta iota; [| reflexivity].
    rewrite Hfr; reflexivity. }
  rewrite Hsame; split; reflexivity.
Qed.

Lemma rejectFollow_unloaded_relation_keeps_edge_witness :
  followingsRepository
    (snd (rejectFollow Sample.lounge Sample.alice
            (set_users (fun _ => [Sample.alice]) Sample.withEdge)))
  = [Following.mk "f1" "alice" "lounge"]
  /\ usersRepository
       (snd (rejectFollow Sample.lounge Sample.alice
               (set_users (fun _ => [Sample.alice]) Sample.withEdge)))
     = [Sample.alice].
Proof.
  apply (rejectFollow_unloaded_relation_keeps_edge Sample.lounge Sample.alice
           (set_users (fun _ => [Sample.alice]) Sample.withEdge)).
  left; reflexivity.
Defined.

(** X12: the delete of line 582 goes by the primary key of the found row:
    when [rejectFollow] finds an edge and loads both users, the rows left in
    the edge table are exactly the rows that were there with another id, in
    their order. *)
Theorem rejectFollow_keeps_other_rows :
  forall channel follower s row followee followerUser,
    find (matchesFollowing (User.id follower) (Channel.id channel))
      (followingsRepository s) = Some row ->
    findUser s (Channel.id channel) = Some followee ->
    findUser s (User.id follower) = Some followerUser ->
    followingsRepository (snd (rejectFollow channel follower s))
    = filter (fun f => negb (String.eqb (Following.id f) (Following.id row)))
        (followingsRepository s)
    /\ (forall r,
          In r (followingsRepository (snd (rejectFollow channel follower s)))
          <-> In r (followingsRepository s)
              /\ Following.id r <> Following.id row).
Proof.
  intros channel follower s row followee followerUser Hfind Hfe Hfr.
  rewrite (proj1 (rejectFollow_tables channel follower s)).
  rewrite (removeFollow_deletes_row _ _ _ _ _ _ Hfind Hfe Hfr).
  split; [reflexivity |].
  intros r; rewrite filter_In, negb_true_iff.
  split; intros [Hin Hid]; split; try assumption.
  - intros Heq; rewrite Heq, String.eqb_refl in Hid; discriminate.
  - apply String.eqb_neq; assumption.
Qed.

Lemma rejectFollow_keeps_other_rows_witness :
  followingsRepository
    (snd (rejectFollow (Channel.mk "carol" None None true) Sample.blank
            Sample.counters))
  = [Following.mk "f2" "carol" "moved"; Following.mk "f4" "carol" "blank";
     Following.mk "f5" "carol" "dave"; Following.mk "f6" "dave" "carol"].
Proof.
  apply (proj1 (rejectFollow_keeps_other_rows
                  (Channel.mk "carol" None None true) Sample.blank
                  Sample.counters (Following.mk "f3" "blank" "carol")
                  Sample.carol Sample.blank eq_refl eq_refl eq_refl)).
Defined.

(** X13: under the conditions of X10 a second [rejectFollow] for the same
    pair finds nothing to remove: the edge table and the users table, and
    with it every counter, are the same after the second call as after the
    first. *)
Theorem rejectFollow_twice :
  forall channel follower s,
    edgePairsUnique s ->
    findUser s (Channel.id channel) <> None ->
    findUser s (User.id follower) <> None ->
    let s1 := snd (rejectFollow channel follower s) in
    followingsRepository (snd (rejectFollow channel follower s1))
    = followingsRepository s1
    /\ usersRepository (snd (rejectFollow channel follower s1))
       = usersRepository s1.
Proof.
  intros channel follower s Hunique Hfe Hfr s1.
  assert (Hgone : hasEdge s1 (User.id follower) (Channel.id channel) = false).
  { unfold s1, hasEdge.
    rewrite (proj1 (rejectFollow_tables channel follower s)).
    apply (removeFollow_clears_edge _ _ s Hunique Hfe Hfr). }
  destruct (rejectFollow_tables channel follower s1) as [-> ->].
  rewrite (removeFollow_without_edge _ _ s1 Hgone); split; reflexivity.
Qed.

Lemma rejectFollow_twice_witness :
  let s1 := snd (rejectFollow Sample.lounge Sample.alice Sample.withEdge) in
  followingsRepository (snd (rejectFollow Sample.lounge Sample.alice s1))
  = followingsRepository s1
  /\ usersRepository (snd (rejectFollow Sample.lounge Sample.alice s1))
     = usersRepository s1.
Proof.
  apply (rejectFollow_twice Sample.lounge Sample.alice Sample.withEdge).
  - exact edgePairsUnique_withEdge.
  - discriminate.
  - discriminate.
Defined.

(** ** The reconciler and the counters *)

(** The users table after [decrementFollowing], on either path. *)
Lemma decrementFollowing_users_table :
  forall follower followee s,
    usersRepository (snd (decrementFollowing follower followee s))
    = map (if migrated follower || migrated followee
           then slowPath migrated s follower followee
           else fastPath follower followee) (usersRepository s).
Proof.
  intros follower followee s; unfold migrated, decrementFollowing, slowPath.
  destruct (truthy (User.movedToUri follower)) eqn:Hfr;
    destruct (truthy (User.movedToUri followee)) eqn:Hfe;
    unfold forEach, usersRepository_update, usersRepository_decrement;
    unfold_service;
    cbn [negb andb orb]; cbv beta iota;
    rewrite ?Hfr, ?Hfe; cbv beta iota;
    rewrite ?countNonMovedFollowees_brute; cbv beta iota;
    rewrite ?countNonMovedFollowers_brute; cbv beta iota.
  - simpl; rewrite <- (map_id (usersRepository s)) at 1.
    apply map_ext; intros u; rewrite !andb_false_r; reflexivity.
  - simpl; rewrite recount_update.
    apply map_ext; intros u; rewrite andb_false_r, andb_true_r; reflexivity.
  - simpl; rewrite recount_update.
    apply map_ext; intros u.
    rewrite andb_false_r, andb_true_r, orb_false_r; reflexivity.
  - split_tests; simpl; apply fastPath_updates.
Qed.




Lemma find_map_same_id :
  forall (g : User.t -> User.t) (i : Id) (users : list User.t),
    (forall u, User.id (g u) = User.id u) ->
    find (fun u => String.eqb (User.id u) i) (map g users)
    = option_map g (find (fun u => String.eqb (User.id u) i) users).
Proof.
  intros g i users Hid; induction users as [| u users IH]; simpl;
    [reflexivity |].
  rewrite Hid; destruct (String.eqb (User.id u) i); [reflexivity | exact IH].
Qed.

(** Whether a counterpart has moved is read off [id] and [movedToUri]. *)
Lemma counterpartNotMoved_map :
  forall (g : User.t -> User.t) (s s' : State),
    (forall u, User.id (g u) = User.id u) ->
    (forall u, User.movedToUri (g u) = User.movedToUri u) ->
    usersRepository s' = map g (usersRepository s) ->
    forall i, counterpartNotMoved s' i = counterpartNotMoved s i.
Proof.
  intros g s s' Hid Hmoved Husers i; unfold counterpartNotMoved, findUser.
  rewrite Husers, (find_map_same_id g i _ Hid).
  destruct (find _ (usersRepository s)) as [u |]; simpl; [| reflexivity].
  rewrite Hmoved; reflexivity.
Qed.

Lemma countEdges_ext :
  forall (p q : Following.t -> bool) (edges : list Following.t),
    (forall e, p e = q e) -> countEdges p edges = countEdges q edges.
Proof.
  intros p q edges Hpq; induction edges as [| e edges IH]; simpl;
    [reflexivity |].
  rewrite Hpq, IH; reflexivity.
Qed.

Lemma filter_other_id :
  forall (i : Id) (edges : list Following.t),
    ~ In i (map Following.id edges) ->
    filter (fun f => negb (String.eqb (Following.id f) i)) edges = edges.
Proof.
  intros i edges Hnot; induction edges as [| e edges IH]; simpl;
    [reflexivity |].
  simpl in Hnot.
  destruct (String.eqb_spec (Following.id e) i) as [Heq | Hne]; simpl.
  - exfalso; apply Hnot; left; assumption.
  - rewrite IH; [reflexivity | tauto].
Qed.

(** Deleting by a primary key takes exactly the one row of that key out of
    a count. *)
Lemma countEdges_delete :
  forall (p : Following.t -> bool) (edges : list Following.t)
         (row : Following.t),
    NoDup (map Following.id edges) ->
    In row edges ->
    countEdges p
      (filter (fun f => negb (String.eqb (Following.id f) (Following.id row)))
         edges)
    = (countEdges p edges - (if p row then 1 else 0))%Z.
Proof.
  intros p edges row; induction edges as [| e edges IH]; simpl;
    intros Hnodup Hin; [contradiction |].
  inversion Hnodup as [| i l Hfresh Hrest]; subst.
  destruct Hin as [-> | Hin].
  - rewrite String.eqb_refl; simpl.
    rewrite (filter_other_id _ _ Hfresh); lia.
  - destruct (String.eqb_spec (Following.id e) (Following.id row))
      as [Heq | Hne]; simpl.
    + exfalso; apply Hfresh; rewrite Heq; apply in_map; assumption.
    + rewrite (IH Hrest Hin); lia.
Qed.

Lemma fastPath_id :
  forall follower followee u,
    User.id (fastPath follower followee u) = User.id u.
Proof. reflexivity. Qed.

Lemma fastPath_movedToUri :
  forall follower followee u,
    User.movedToUri (fastPath follower followee u) = User.movedToUri u.
Proof. reflexivity. Qed.

Lemma slowPath_id :
  forall moved s follower followee u,
    User.id (slowPath moved s follower followee u) = User.id u.
Proof. intros; unfold slowPath; destruct (_ || _); reflexivity. Qed.

Lemma slowPath_movedToUri :
  forall moved s follower followee u,
    User.movedToUri (slowPath moved s follower followee u) = User.movedToUri u.
Proof. intros; unfold slowPath; destruct (_ || _); reflexivity. Qed.

Lemma findUser_id :
  forall s i u, findUser s i = Some u -> User.id u = i.
Proof.
  intros s i u Hfind; unfold findUser in Hfind.
  apply find_some in Hfind; apply String.eqb_eq; tauto.
Qed.

Lemma joinedMovedToUri_found :
  forall s i u,
    findUser s i = Some u ->
    joinedMovedToUri (usersRepository s) i = User.movedToUri u.
Proof.
  intros s i u Hfind; unfold findUser in Hfind; unfold joinedMovedToUri.
  rewrite Hfind; reflexivity.
Qed.

Lemma countersAgree_same_tables :
  forall s s',
    usersRepository s' = usersRepository s ->
    followingsRepository s' = followingsRepository s ->
    countersAgree s -> countersAgree s'.
Proof.
  intros s s' Husers Hedges Hagree u Hin; rewrite Husers in Hin.
  specialize (Hagree u Hin).
  unfold bruteFollowingCount, bruteFollowersCount, counterpartNotMoved,
    findUser in *.
  rewrite Husers, Hedges; exact Hagree.
Qed.

(** The counters stay right across [removeFollow] on the fast path. *)
Lemma removeFollow_preserves_countersAgree :
  forall followeeId followerId s,
    countersAgree s ->
    edgeKeysUnique s ->
    joinedMovedToUri (usersRepository s) followerId = None ->
    joinedMovedToUri (usersRepository s) followeeId = None ->
    countersAgree (snd (removeFollow followeeId followerId s)).
Proof.
  intros followeeId followerId s Hagree Hkeys Hfr_null Hfe_null.
  destruct (find (matchesFollowing followerId followeeId)
              (followingsRepository s)) as [row |] eqn:Hfind.
  2: { rewrite removeFollow_without_edge; [assumption |].
       unfold hasEdge; rewrite <- existsb_isSome_find, Hfind; reflexivity. }
  destruct (findUser s followeeId) as [followee |] eqn:Hfe.
  2: { replace (snd (removeFollow followeeId followerId s)) with s;
         [assumption |].
       unfold findUser in Hfe; unfold_removeFollow; rewrite Hfind.
       destruct (find_matchesFollowing _ _ _ _ Hfind) as [_ [_ ->]].
       rewrite Hfe; reflexivity. }
  destruct (findUser s followerId) as [follower |] eqn:Hfr.
  2: { replace (snd (removeFollow followeeId followerId s)) with s;
         [assumption |].
       unfold findUser in Hfe, Hfr; unfold_removeFollow; rewrite Hfind.
       destruct (find_matchesFollowing _ _ _ _ Hfind) as [_ [-> ->]].
       rewrite Hfe; cbv beta iota; rewrite Hfr; reflexivity. }
  destruct (find_matchesFollowing _ _ _ _ Hfind) as [Hin [Hrow_fr Hrow_fe]].
  rewrite (joinedMovedToUri_found _ _ _ Hfr) in Hfr_null.
  rewrite (joinedMovedToUri_found _ _ _ Hfe) in Hfe_null.
  pose proof (findUser_id _ _ _ Hfr) as Hfr_id.
  pose proof (findUser_id _ _ _ Hfe) as Hfe_id.
  pose proof (removeFollow_deletes_row _ _ _ _ _ _ Hfind Hfe Hfr) as Hedges.
  assert (Husers :
            usersRepository (snd (removeFollow followeeId followerId s))
            = map (fastPath follower followee) (usersRepository s)).
  { rewrite (removeFollow_reconciles followeeId followerId s row followee
               follower Hfind);
      [| rewrite Hrow_fe; exact Hfe | rewrite Hrow_fr; exact Hfr].
    simpl; rewrite decrementFollowing_users_table.
    unfold migrated; rewrite Hfr_null, Hfe_null; reflexivity. }
  set (s' := snd (removeFollow followeeId followerId s)) in *.
  assert (Hmoved : forall i, counterpartNotMoved s' i = counterpartNotMoved s i).
  { apply (counterpartNotMoved_map (fastPath follower followee));
      [apply fastPath_id | apply fastPath_movedToUri | exact Husers]. }
  assert (Hfe_counted : counterpartNotMoved s followeeId = true).
  { unfold counterpartNotMoved; rewrite Hfe, Hfe_null; reflexivity. }
  assert (Hfr_counted : counterpartNotMoved s followerId = true).
  { unfold counterpartNotMoved; rewrite Hfr, Hfr_null; reflexivity. }
  intros u' Hu'; rewrite Husers in Hu'; apply in_map_iff in Hu'.
  destruct Hu' as [u [<- Hu]]; specialize (Hagree u Hu).
  destruct Hagree as [Hfollowing Hfollowers].
  unfold bruteFollowingCount, bruteFollowersCount in *.
  rewrite Hedges, fastPath_id.
  rewrite (countEdges_ext _
             (fun e => String.eqb (Following.followerId e) (User.id u)
                       && counterpartNotMoved s (Following.followeeId e)))
    by (intros e; rewrite Hmoved; reflexivity).
  rewrite (countEdges_ext
             (fun e => String.eqb (Following.followeeId e) (User.id u)
                       && counterpartNotMoved s' (Following.followerId e))
             (fun e => String.eqb (Following.followeeId e) (User.id u)
                       && counterpartNotMoved s (Following.followerId e)))
    by (intros e; rewrite Hmoved; reflexivity).
  rewrite !(countEdges_delete _ _ row Hkeys Hin).
  rewrite Hrow_fr, Hrow_fe, Hfe_counted, Hfr_counted, !andb_true_r.
  rewrite <- Hfollowing, <- Hfollowers; unfold fastPath; simpl.
  rewrite Hfr_id, Hfe_id.
  rewrite (String.eqb_sym followerId), (String.eqb_sym followeeId).
  destruct (String.eqb (User.id u) followerId),
    (String.eqb (User.id u) followeeId); split; lia.
Qed.

(** X14: let every stored user's [followingCount] and [followersCount] be
    the number of its edges whose counterpart has a null [movedToUri], let
    edge ids be unique, and let neither the follower nor the channel's id
    name a user with a [movedToUri]: then the same holds after
    [rejectFollow], whether or not it found an edge to remove. *)
Theorem rejectFollow_preserves_countersAgree :
  forall channel follower s,
    countersAgree s ->
    edgeKeysUnique s ->
    joinedMovedToUri (usersRepository s) (User.id follower) = None ->
    joinedMovedToUri (usersRepository s) (Channel.id channel) = None ->
    countersAgree (snd (rejectFollow channel follower s)).
Proof.
  intros channel follower s Hagree Hkeys Hfr Hfe.
  destruct (rejectFollow_tables channel follower s) as [Hedges Husers].
  apply (countersAgree_same_tables _ _ Husers Hedges).
  apply removeFollow_preserves_countersAgree; assumption.
Qed.

Lemma countersAgree_agreed : countersAgree Fixture.agreed.
Proof.
  intros u Hin; simpl in Hin.
  destruct Hin as [<- | [<- | [<- | []]]]; split; reflexivity.
Qed.

Lemma rejectFollow_preserves_countersAgree_witness :
  countersAgree (snd (rejectFollow Sample.lounge Fixture.aliceOne
                        Fixture.agreed)).
Proof.
  apply (rejectFollow_preserves_countersAgree Sample.lounge Fixture.aliceOne
           Fixture.agreed).
  - exact countersAgree_agreed.
  - unfold edgeKeysUnique; simpl; repeat constructor; simpl; tauto.
  - reflexivity.
  - reflexivity.
Defined.

(** The brute-force counts are read off the edge table and off the [id] and
    [movedToUri] columns of the users table. *)
Lemma bruteCounts_map :
  forall (g : User.t -> User.t) (s s' : State),
    (forall u, User.id (g u) = User.id u) ->
    (forall u, User.movedToUri (g u) = User.movedToUri u) ->
    usersRepository s' = map g (usersRepository s) ->
    followingsRepository s' = followingsRepository s ->
    forall i,
      bruteFollowingCount s' i = bruteFollowingCount s i
      /\ bruteFollowersCount s' i = bruteFollowersCount s i.
Proof.
  intros g s s' Hid Hmoved Husers Hedges i.
  pose proof (counterpartNotMoved_map g s s' Hid Hmoved Husers) as Hsame.
  unfold bruteFollowingCount, bruteFollowersCount; rewrite Hedges.
  split; apply countEdges_ext; intros e; rewrite Hsame; reflexivity.
Qed.

Lemma decrementFollowing_slow_counts :
  forall follower followee s,
    migrated follower || migrated followee = true ->
    forall i,
      bruteFollowingCount (snd (decrementFollowing follower followee s)) i
      = bruteFollowingCount s i
      /\ bruteFollowersCount (snd (decrementFollowing follower followee s)) i
         = bruteFollowersCount s i.
Proof.
  intros follower followee s Hmoved.
  apply (bruteCounts_map (slowPath migrated s follower followee)).
  - apply slowPath_id.
  - apply slowPath_movedToUri.
  - rewrite decrementFollowing_users_table, Hmoved; reflexivity.
  - apply decrementFollowing_keeps_edges.
Qed.

Lemma recount_recount :
  forall s s' u,
    bruteFollowingCount s' (User.id u) = bruteFollowingCount s (User.id u) ->
    bruteFollowersCount s' (User.id u) = bruteFollowersCount s (User.id u) ->
    recount s' (recount s u) = recount s u.
Proof.
  intros s s' u H1 H2; unfold recount; simpl; rewrite H1, H2; reflexivity.
Qed.

(** X15: on the recount path the reconciler is idempotent: when the
    [movedToUri] of an endpoint is truthy, running [decrementFollowing] a
    second time with the same two users leaves the users table exactly as
    the first run left it, so repeated removals around a moved account do
    not make the counters drift. *)
Theorem decrementFollowing_recount_idempotent :
  forall follower followee s,
    migrated follower || migrated followee = true ->
    usersRepository
      (snd (decrementFollowing follower followee
              (snd (decrementFollowing follower followee s))))
    = usersRepository (snd (decrementFollowing follower followee s)).
Proof.
  intros follower followee s Hmoved.
  pose proof (decrementFollowing_slow_counts follower followee s Hmoved)
    as Hcounts.
  rewrite (decrementFollowing_users_table follower followee
             (snd (decrementFollowing follower followee s))).
  rewrite Hmoved, (decrementFollowing_users_table follower followee s), Hmoved.
  rewrite map_map; apply map_ext; intros u.
  unfold slowPath at 1; rewrite slowPath_id.
  unfold slowPath.
  destruct ((String.eqb (User.id u) (User.id follower)
             && negb (migrated follower))
            || (String.eqb (User.id u) (User.id followee)
                && negb (migrated followee))); [| reflexivity].
  apply recount_recount; apply Hcounts.
Qed.

Lemma decrementFollowing_recount_idempotent_witness :
  usersRepository
    (snd (decrementFollowing Sample.carol Sample.moved
            (snd (decrementFollowing Sample.carol Sample.moved
                    Sample.counters))))
  = usersRepository
      (snd (decrementFollowing Sample.carol Sample.moved Sample.counters)).
Proof.
  apply (decrementFollowing_recount_idempotent Sample.carol Sample.moved
           Sample.counters).
  reflexivity.
Defined.

(** X16: on the recount path the counters the reconciler writes are right
    for the table it leaves: every stored row of an endpoint whose own
    [movedToUri] is falsy ends with [followingCount] equal to the number of
    its edges whose followee has a null [movedToUri] and [followersCount]
    equal to the number of its edges whose follower has a null
    [movedToUri], counted over the resulting state. *)
Theorem decrementFollowing_recount_agrees :
  forall follower followee s u,
    migrated follower || migrated followee = true ->
    In u (usersRepository (snd (decrementFollowing follower followee s))) ->
    (User.id u = User.id follower /\ migrated follower = false)
    \/ (User.id u = User.id followee /\ migrated followee = false) ->
    User.followingCount u
    = bruteFollowingCount (snd (decrementFollowing follower followee s))
        (User.id u)
    /\ User.followersCount u
       = bruteFollowersCount (snd (decrementFollowing follower followee s))
           (User.id u).
Proof.
  intros follower followee s u' Hmoved Hin Hendpoint.
  pose proof (decrementFollowing_slow_counts follower followee s Hmoved
                (User.id u')) as [Hc1 Hc2].
  rewrite Hc1, Hc2.
  rewrite decrementFollowing_users_table, Hmoved in Hin.
  apply in_map_iff in Hin; destruct Hin as [u [<- _]].
  rewrite slowPath_id in Hendpoint; rewrite slowPath_id.
  unfold slowPath.
  assert (Hcond : (String.eqb (User.id u) (User.id follower)
                   && negb (migrated follower))
                  || (String.eqb (User.id u) (User.id followee)
                      && negb (migrated followee)) = true).
  { apply orb_true_iff.
    destruct Hendpoint as [[Hid Hnot] | [Hid Hnot]]; [left | right];
      rewrite Hid, Hnot, String.eqb_refl; reflexivity. }
  rewrite Hcond; split; reflexivity.
Qed.

Lemma decrementFollowing_recount_agrees_witness :
  User.followingCount
    (User.mk "carol" None None None None None false false 1 1)
  = bruteFollowingCount
      (snd (decrementFollowing Sample.carol Sample.moved Sample.counters))
      "carol"
  /\ User.followersCount
       (User.mk "carol" None None None None None false false 1 1)
     = bruteFollowersCount
         (snd (decrementFollowing Sample.carol Sample.moved Sample.counters))
         "carol".
Proof.
  apply (decrementFollowing_recount_agrees Sample.carol Sample.moved
           Sample.counters
           (User.mk "carol" None None None None None false false 1 1)).
  - reflexivity.
  - simpl; tauto.
  - left; split; reflexivity.
Defined.

Lemma Forall2_map_right :
  forall (A B : Type) (R : A -> B -> Prop) (g : A -> B) (l : list A),
    (forall a, R a (g a)) -> Forall2 R l (map g l).
Proof.
  intros A B R g l HR; induction l as [| a l IH]; simpl; constructor; auto.
Qed.

(** X17: whichever path it takes, the reconciler writes nothing but counters
    of the two endpoints: the users table keeps its rows in their order,
    each row keeps every column other than [followingCount] and
    [followersCount], a row whose id is neither the follower's nor the
    followee's is untouched, and the edge table and the request table are as
    before. *)
Theorem decrementFollowing_writes_only_endpoint_counters :
  forall follower followee s,
    Forall2
      (fun u u' =>
         u' = User.set_followersCount (User.followersCount u')
                (User.set_followingCount (User.followingCount u') u)
         /\ (User.id u <> User.id follower ->
             User.id u <> User.id followee -> u' = u))
      (usersRepository s)
      (usersRepository (snd (decrementFollowing follower followee s)))
    /\ followingsRepository (snd (decrementFollowing follower followee s))
       = followingsRepository s
    /\ channelFollowRequestsRepository
         (snd (decrementFollowing follower followee s))
       = channelFollowRequestsRepository s.
Proof.
  intros follower followee s; split.
  - rewrite decrementFollowing_users_table.
    apply Forall2_map_right; intros u.
    destruct (migrated follower || migrated followee).
    + unfold slowPath.
      destruct (String.eqb_spec (User.id u) (User.id follower));
        destruct (String.eqb_spec (User.id u) (User.id followee));
        destruct (migrated follower); destruct (migrated followee); simpl;
        (split; [destruct u; reflexivity | tauto]).
    + unfold fastPath.
      destruct (String.eqb_spec (User.id u) (User.id follower));
        destruct (String.eqb_spec (User.id u) (User.id followee));
        (split; [destruct u; reflexivity | try tauto]).
      intros _ _; destruct u; reflexivity.
  - destruct (decrementFollowing_keepsStore follower followee s) as [H1 H2].
    split; assumption.
Qed.

(** ** [insertFollowingDoc]: what is left in the request table *)

(** The row [insertFollowingDoc] builds for its insert. *)
Lemma insertFollowingDoc_past_guards :
  forall channel owner follower silent s,
    Channel.user channel = Some owner ->
    String.eqb (User.id follower) (User.id owner) = false ->
    let row := ChannelFollowRequest.mk
                 (NilEmpty.string_of_uint (Nat.to_uint (generatedIds s)))
                 (Channel.id channel) (User.id follower) None in
    let rows := channelFollowRequestsRepository s in
    let notPair := fun r => negb (matchesRequest (Channel.id channel)
                                    (User.id follower) r) in
    insertFollowingDoc channel follower silent s
    = if violatesUnique row rows then
        if isRemoteUser follower then
          (Ok tt,
           if isSome (find (matchesRequest (Channel.id channel)
                              (User.id follower)) rows)
           then set_channelFollowRequests (filter notPair)
                  (set_generatedIds S s)
           else set_generatedIds S s)
        else (Throw DuplicateKeyValueError, set_generatedIds S s)
      else
        (Throw (ReferenceError "followee"),
         set_channelFollowRequests (filter notPair)
           (set_channelFollowRequests (fun l => l ++ [row])
              (set_generatedIds S s))).
Proof.
  intros channel owner follower silent s Howner Hself row rows notPair.
  subst row rows notPair.
  unfold_insertFollowingDoc; rewrite Howner; cbv beta iota.
  rewrite Hself; simpl.
  destruct (violatesUnique _ _) eqn:Hdup; simpl.
  - destruct (isRemoteUser follower); simpl; [| reflexivity].
    destruct (find _ _); reflexivity.
  - rewrite find_app_hit by apply matchesRequest_refl; reflexivity.
Qed.

Lemma existsb_filter_implied :
  forall (A : Type) (p q : A -> bool) (l : list A),
    (forall x, p x = true -> q x = true) ->
    existsb p (filter q l) = existsb p l.
Proof.
  intros A p q l Hpq; induction l as [| a l IH]; simpl; [reflexivity |].
  destruct (q a) eqn:Hq; simpl; rewrite IH; [reflexivity |].
  destruct (p a) eqn:Hp; [| reflexivity].
  rewrite (Hpq a Hp) in Hq; discriminate.
Qed.

Lemma violatesUnique_false_no_pair :
  forall i channelId followerId requestId rows,
    violatesUnique (ChannelFollowRequest.mk i channelId followerId requestId)
      rows = false ->
    existsb (matchesRequest channelId followerId) rows = false.
Proof.
  intros i channelId followerId requestId rows; unfold violatesUnique; simpl.
  induction rows as [| r rows IH]; simpl; [reflexivity |].
  intros H; apply orb_false_iff in H; destruct H as [Hr Hrest].
  apply orb_false_iff in Hr; destruct Hr as [_ Hr].
  rewrite Hr; simpl; apply IH; exact Hrest.
Qed.

Lemma filter_none_match :
  forall (A : Type) (p : A -> bool) (l : list A),
    existsb p l = false -> filter (fun x => negb (p x)) l = l.
Proof.
  intros A p l; induction l as [| a l IH]; simpl; [reflexivity |].
  intros H; apply orb_false_iff in H; destruct H as [Ha Hl].
  rewrite Ha; simpl; rewrite (IH Hl); reflexivity.
Qed.

Lemma insertFollowingDoc_owner_unloaded :
  forall channel follower silent s,
    Channel.user channel = None ->
    insertFollowingDoc channel follower silent s = (Throw (TypeError "id"), s).
Proof.
  intros channel follower silent s Hnone.
  unfold_insertFollowingDoc; rewrite Hnone; reflexivity.
Qed.

Lemma insertFollowingDoc_self :
  forall channel owner follower silent s,
    Channel.user channel = Some owner ->
    User.id follower = User.id owner ->
    insertFollowingDoc channel follower silent s = (Ok tt, s).
Proof.
  intros channel owner follower silent s Howner Hself.
  unfold_insertFollowingDoc; rewrite Howner; cbv beta iota.
  rewrite Hself, String.eqb_refl; reflexivity.
Qed.

(** X18: the two guards of [insertFollowingDoc] come before any write: a
    channel object whose owner relation is not loaded makes line 177 throw a
    TypeError, and a follower who is the channel's owner makes it return;
    in both cases no id is generated and the state is as it was. *)
Theorem insertFollowingDoc_guards :
  forall channel follower silent s,
    (Channel.user channel = None ->
     insertFollowingDoc channel follower silent s
     = (Throw (TypeError "id"), s))
    /\ (forall owner,
          Channel.user channel = Some owner ->
          User.id follower = User.id owner ->
          insertFollowingDoc channel follower silent s = (Ok tt, s)).
Proof.
  intros channel follower silent s; split.
  - apply insertFollowingDoc_owner_unloaded.
  - intros owner; apply insertFollowingDoc_self.
Qed.

Lemma insertFollowingDoc_guards_witness :
  insertFollowingDoc Sample.lounge Sample.alice false Sample.base
  = (Throw (TypeError "id"), Sample.base)
  /\ insertFollowingDoc Sample.loungeLoaded Sample.owner false Sample.base
     = (Ok tt, Sample.base).
Proof.
  split.
  - apply (proj1 (insertFollowingDoc_guards Sample.lounge Sample.alice false
                    Sample.base)).
    reflexivity.
  - apply (proj2 (insertFollowingDoc_guards Sample.loungeLoaded Sample.owner
                    false Sample.base) Sample.owner); reflexivity.
Defined.

(** X19: past its guards, [insertFollowingDoc] leaves no row for the pair in
    the table it inserts into, unless it rethrows the duplicate-key error:
    the row it inserted, or the row that made the insert fail, is found by
    the lookup of lines 195-198 and deleted by lines 201-204. *)
Theorem insertFollowingDoc_clears_pair :
  forall channel owner follower silent s,
    Channel.user channel = Some owner ->
    User.id follower <> User.id owner ->
    fst (insertFollowingDoc channel follower silent s)
    <> Throw DuplicateKeyValueError ->
    hasRequest (snd (insertFollowingDoc channel follower silent s))
      (User.id follower) (Channel.id channel) = false.
Proof.
  intros channel owner follower silent s Howner Hne.
  apply String.eqb_neq in Hne.
  rewrite (insertFollowingDoc_past_guards channel owner follower silent s
             Howner Hne); cbv zeta.
  unfold hasRequest.
  destruct (violatesUnique _ _).
  - destruct (isRemoteUser follower); simpl; [intros _ | congruence].
    destruct (isSome (find _ _)) eqn:Hfound; simpl.
    + apply existsb_filter_negb.
    + rewrite existsb_isSome_find in Hfound; exact Hfound.
  - intros _; simpl; apply existsb_filter_negb.
Qed.

Lemma insertFollowingDoc_clears_pair_witness :
  hasRequest Sample.bobStored "bob" "lounge" = true
  /\ hasRequest
       (snd (insertFollowingDoc Sample.loungeLoaded Sample.bob false
               Sample.bobStored)) "bob" "lounge" = false.
Proof.
  split; [reflexivity |].
  apply (insertFollowingDoc_clears_pair Sample.loungeLoaded Sample.owner
           Sample.bob false Sample.bobStored);
    [reflexivity | discriminate | discriminate].
Defined.

(** X20: [insertFollowingDoc] never publishes and never delivers: on every
    input the recorded effects, the deliver queue, the users table, the edge
    table and the block table are as before.  The internal "follow" event
    of line 214 is never emitted, since its payload reads [followee]. *)
Theorem insertFollowingDoc_never_emits :
  forall channel follower silent s,
    let s' := snd (insertFollowingDoc channel follower silent s) in
    effects s' = effects s
    /\ deliverQueue s' = deliverQueue s
    /\ usersRepository s' = usersRepository s
    /\ followingsRepository s' = followingsRepository s
    /\ blockings s' = blockings s.
Proof.
  intros channel follower silent s.
  destruct (Channel.user channel) as [owner |] eqn:Howner.
  2: { cbv zeta.
       rewrite (insertFollowingDoc_owner_unloaded channel follower silent s
                  Howner); repeat split. }
  destruct (String.eqb_spec (User.id follower) (User.id owner)) as [Heq | Hne].
  - cbv zeta.
    rewrite (insertFollowingDoc_self channel owner follower silent s
               Howner Heq); repeat split.
  - apply String.eqb_neq in Hne; cbv zeta.
    rewrite (insertFollowingDoc_past_guards channel owner follower silent s
               Howner Hne); cbv zeta.
    destruct (violatesUnique _ _); [destruct (isRemoteUser follower) |];
      try destruct (isSome (find _ _)); repeat split.
Qed.

(** X21: past its guards, [insertFollowingDoc] never returns normally for a
    local follower: on every state it throws, either the duplicate-key error
    of the insert or the ReferenceError of line 214. *)
Theorem insertFollowingDoc_local_always_throws :
  forall channel owner follower silent s,
    Channel.user channel = Some owner ->
    User.id follower <> User.id owner ->
    isLocalUser follower = true ->
    fst (insertFollowingDoc channel follower silent s)
    = Throw DuplicateKeyValueError
    \/ fst (insertFollowingDoc channel follower silent s)
       = Throw (ReferenceError "followee").
Proof.
  intros channel owner follower silent s Howner Hne Hlocal.
  apply String.eqb_neq in Hne.
  rewrite (insertFollowingDoc_past_guards channel owner follower silent s
             Howner Hne); cbv zeta.
  unfold isLocalUser in Hlocal; unfold isRemoteUser.
  destruct (isSome (User.host follower)); [discriminate |].
  destruct (violatesUnique _ _); [left | right]; reflexivity.
Qed.

Lemma insertFollowingDoc_local_always_throws_witness :
  fst (insertFollowingDoc Sample.loungeLoaded Sample.alice false Sample.base)
  = Throw DuplicateKeyValueError
  \/ fst (insertFollowingDoc Sample.loungeLoaded Sample.alice false
            Sample.base)
     = Throw (ReferenceError "followee").
Proof.
  apply (insertFollowingDoc_local_always_throws Sample.loungeLoaded
           Sample.owner Sample.alice false Sample.base);
    [reflexivity | discriminate | reflexivity].
Defined.

(** X22: a first insert is undone within the call.  Past the guards, when
    the insert is accepted (no stored row has the pair or the new id), the
    row is inserted, found and deleted again, and the call throws the
    ReferenceError of line 214: the request table ends as it began, one id
    is used up, and nothing records the follow. *)
Theorem insertFollowingDoc_first_insert_is_undone :
  forall channel owner follower silent s,
    Channel.user channel = Some owner ->
    User.id follower <> User.id owner ->
    violatesUnique
      (ChannelFollowRequest.mk
         (NilEmpty.string_of_uint (Nat.to_uint (generatedIds s)))
         (Channel.id channel) (User.id follower) None)
      (channelFollowRequestsRepository s) = false ->
    fst (insertFollowingDoc channel follower silent s)
    = Throw (ReferenceError "followee")
    /\ channelFollowRequestsRepository
         (snd (insertFollowingDoc channel follower silent s))
       = channelFollowRequestsRepository s
    /\ generatedIds (snd (insertFollowingDoc channel follower silent s))
       = S (generatedIds s).
Proof.
  intros channel owner follower silent s Howner Hne Hfresh.
  apply String.eqb_neq in Hne.
  rewrite (insertFollowingDoc_past_guards channel owner follower silent s
             Howner Hne); cbv zeta.
  rewrite Hfresh; simpl; repeat split.
  rewrite filter_app_miss by (rewrite matchesRequest_refl; reflexivity).
  apply filter_none_match.
  apply (violatesUnique_false_no_pair _ _ _ _ _ Hfresh).
Qed.

Lemma insertFollowingDoc_first_insert_is_undone_witness :
  fst (insertFollowingDoc Sample.loungeLoaded Sample.alice false
         Sample.bobStored)
  = Throw (ReferenceError "followee")
  /\ channelFollowRequestsRepository
       (snd (insertFollowingDoc Sample.loungeLoaded Sample.alice false
               Sample.bobStored))
     = channelFollowRequestsRepository Sample.bobStored
  /\ generatedIds
       (snd (insertFollowingDoc Sample.loungeLoaded Sample.alice false
               Sample.bobStored)) = 1%nat.
Proof.
  apply (insertFollowingDoc_first_insert_is_undone Sample.loungeLoaded
           Sample.owner Sample.alice false Sample.bobStored);
    [reflexivity | discriminate | reflexivity].
Defined.

(** X23: [insertFollowingDoc] touches the rows of its own pair only: for
    every other ordered pair, whether a row is stored is the same after the
    call as before, on every input and whatever the outcome. *)
Theorem insertFollowingDoc_keeps_other_pairs :
  forall channel follower silent s a b,
    (a, b) <> (User.id follower, Channel.id channel) ->
    hasRequest (snd (insertFollowingDoc channel follower silent s)) a b
    = hasRequest s a b.
Proof.
  intros channel follower silent s a b Hother.
  assert (Hkept : forall r,
            matchesRequest b a r = true ->
            negb (matchesRequest (Channel.id channel) (User.id follower) r)
            = true).
  { intros r Hr; apply negb_true_iff.
    destruct (matchesRequest (Channel.id channel) (User.id follower) r)
      eqn:Hpair; [| reflexivity].
    unfold matchesRequest in Hr, Hpair.
    apply andb_true_iff in Hr, Hpair.
    destruct Hr as [H1 H2]; destruct Hpair as [H3 H4].
    apply String.eqb_eq in H1, H2, H3, H4.
    exfalso; apply Hother; congruence. }
  destruct (Channel.user channel) as [owner |] eqn:Howner.
  2: { rewrite (insertFollowingDoc_owner_unloaded channel follower silent s
                  Howner); reflexivity. }
  destruct (String.eqb_spec (User.id follower) (User.id owner)) as [Heq | Hne].
  - rewrite (insertFollowingDoc_self channel owner follower silent s
               Howner Heq); reflexivity.
  - apply String.eqb_neq in Hne.
    rewrite (insertFollowingDoc_past_guards channel owner follower silent s
               Howner Hne); cbv zeta.
    unfold hasRequest.
    destruct (violatesUnique _ _); [destruct (isRemoteUser follower) |];
      try destruct (isSome (find _ _)); simpl;
      rewrite ?(existsb_filter_implied _ _ _ _ Hkept); try reflexivity.
    rewrite existsb_app; simpl.
    assert (Hnew : matchesRequest b a
                     (ChannelFollowRequest.mk
                        (NilEmpty.string_of_uint
                           (Nat.to_uint (generatedIds s)))
                        (Channel.id channel) (User.id follower) None)
                   = false).
    { destruct (matchesRequest b a _) eqn:Hr; [| reflexivity].
      apply Hkept in Hr; rewrite matchesRequest_refl in Hr; discriminate. }
    rewrite Hnew; simpl; apply orb_false_r.
Qed.

Lemma insertFollowingDoc_keeps_other_pairs_witness :
  hasRequest
    (snd (insertFollowingDoc Sample.loungeLoaded Sample.alice false
            Sample.bobStored)) "bob" "lounge"
  = hasRequest Sample.bobStored "bob" "lounge".
Proof.
  apply (insertFollowingDoc_keeps_other_pairs Sample.loungeLoaded Sample.alice
           false Sample.bobStored "bob" "lounge").
  discriminate.
Defined.

(** X24: for a local follower the conflict is not absorbed: past the guards,
    when the insert is refused as a duplicate, [insertFollowingDoc] rethrows
    the duplicate-key error without looking the row up, and the request
    table is as it was. *)
Theorem insertFollowingDoc_local_duplicate_rethrows :
  forall channel owner follower silent s,
    Channel.user channel = Some owner ->
    User.id follower <> User.id owner ->
    isLocalUser follower = true ->
    violatesUnique
      (ChannelFollowRequest.mk
         (NilEmpty.string_of_uint (Nat.to_uint (generatedIds s)))
         (Channel.id channel) (User.id follower) None)
      (channelFollowRequestsRepository s) = true ->
    fst (insertFollowingDoc channel follower silent s)
    = Throw DuplicateKeyValueError
    /\ channelFollowRequestsRepository
         (snd (insertFollowingDoc channel follower silent s))
       = channelFollowRequestsRepository s.
Proof.
  intros channel owner follower silent s Howner Hne Hlocal Hdup.
  apply String.eqb_neq in Hne.
  rewrite (insertFollowingDoc_past_guards channel owner follower silent s
             Howner Hne); cbv zeta.
  rewrite Hdup; unfold isLocalUser in Hlocal; unfold isRemoteUser.
  destruct (isSome (User.host follower)); [discriminate |].
  split; reflexivity.
Qed.

Lemma insertFollowingDoc_local_duplicate_rethrows_witness :
  fst (insertFollowingDoc Sample.loungeLoaded Sample.alice false
         Sample.alicePending)
  = Throw DuplicateKeyValueError
  /\ channelFollowRequestsRepository
       (snd (insertFollowingDoc Sample.loungeLoaded Sample.alice false
               Sample.alicePending))
     = channelFollowRequestsRepository Sample.alicePending.
Proof.
  apply (insertFollowingDoc_local_duplicate_rethrows Sample.loungeLoaded
           Sample.owner Sample.alice false Sample.alicePending);
    [reflexivity | discriminate | reflexivity | reflexivity].
Defined.

(** ** The edge table and the operations *)

(** X25: of the eight operations only [rejectFollow] writes to the edge
    table or to a counter: after [follow], [unfollow],
    [createFollowRequest], [cancelFollowRequest], [acceptFollowRequest],
    [acceptAllFollowRequests] or [rejectFollowRequest], whether the call
    returns or throws, the edge table and the users table are the ones
    before.  In particular [unfollow], which rejects at its lookup, leaves
    a stored edge and its counters in place. *)
Theorem edges_change_only_through_rejectFollow :
  forall vaka race op s,
    (forall channel follower, op <> RejectFollow channel follower) ->
    followingsRepository (snd (run vaka race op s)) = followingsRepository s
    /\ usersRepository (snd (run vaka race op s)) = usersRepository s.
Proof.
  intros vaka race op s Hnot; destruct op; unfold run.
  - unfold_follow.
    destruct (find _ (usersRepository s)) as [follower |];
      destruct (find _ (channelRepository s)) as [channel |]; simpl;
      split_tests; split; reflexivity.
  - rewrite unfollow_rejects; split; reflexivity.
  - unfold createFollowRequest, checkBlocked.
    destruct (String.eqb _ _); [split; reflexivity |].
    unfold_service; split_tests; split; reflexivity.
  - unfold cancelFollowRequest, deliver; unfold_service.
    destruct (isRemoteUser followee), (isLocalUser follower);
      split; reflexivity.
  - split; reflexivity.
  - split; reflexivity.
  - split; reflexivity.
  - exfalso; apply (Hnot channel follower); reflexivity.
Qed.

Lemma edges_change_only_through_rejectFollow_witness :
  hasEdge Fixture.agreed "alice" "lounge" = true
  /\ followingsRepository
       (snd (run Sample.noAlsoKnownAs Sample.userFirst
               (Unfollow (Channel.mk "alice" None None true)
                  Fixture.loungeOne false) Fixture.agreed))
     = followingsRepository Fixture.agreed
  /\ usersRepository
       (snd (run Sample.noAlsoKnownAs Sample.userFirst
               (Unfollow (Channel.mk "alice" None None true)
                  Fixture.loungeOne false) Fixture.agreed))
     = usersRepository Fixture.agreed.
Proof.
  split; [reflexivity |].
  apply (edges_change_only_through_rejectFollow Sample.noAlsoKnownAs
           Sample.userFirst
           (Unfollow (Channel.mk "alice" None None true) Fixture.loungeOne
              false) Fixture.agreed).
  intros channel follower; discriminate.
Defined.

(** ** [ChannelService]: the channel lookups *)

(** X26: a channel has at most one owner: when [isOwner] answers true for
    the same channel id and two user ids, the two user ids are equal. *)
Theorem isOwner_at_most_one :
  forall this channelId userId1 userId2,
    ChannelService.isOwner this channelId userId1 = Ok true ->
    ChannelService.isOwner this channelId userId2 = Ok true ->
    userId1 = userId2.
Proof.
  intros this channelId u1 u2; unfold ChannelService.isOwner.
  destruct (ChannelService.findChannel this channelId) as [channel |];
    [| discriminate].
  destruct (Channel.userId channel) as [owner |]; [| discriminate].
  intros H1 H2; inversion H1 as [H1']; inversion H2 as [H2'].
  apply String.eqb_eq in H1', H2'; congruence.
Qed.

Lemma isOwner_at_most_one_witness :
  ChannelService.isOwner Fixture.channels "lounge" "owner" = Ok true
  /\ "owner" = "owner".
Proof.
  split; [reflexivity |].
  apply (isOwner_at_most_one Fixture.channels "lounge" "owner" "owner");
    reflexivity.
Defined.

(** X27: [isPublic] and [isOwner] throw exactly when [getChannel] answers
    null for the id, and then it is EntityNotFoundError; [getChannel]
    itself never throws.  For a stored channel without an owner [isOwner]
    answers false for every user. *)
Theorem channel_lookups_fail_together :
  forall this id,
    (exists found, ChannelService.getChannel this id = Ok found)
    /\ (ChannelService.getChannel this id = Ok None
        <-> ChannelService.isPublic this id
            = Throw (EntityNotFoundError "Channel"))
    /\ (forall userId,
          ChannelService.getChannel this id = Ok None
          <-> ChannelService.isOwner this id userId
              = Throw (EntityNotFoundError "Channel"))
    /\ (forall channel userId,
          ChannelService.getChannel this id = Ok (Some channel) ->
          Channel.userId channel = None ->
          ChannelService.isOwner this id userId = Ok false).
Proof.
  intros this id.
  unfold ChannelService.getChannel, ChannelService.isPublic,
    ChannelService.isOwner.
  destruct (ChannelService.findChannel this id) as [channel |];
    (split; [eexists; reflexivity |]);
    (split; [split; intros H; (discriminate H || reflexivity) |]);
    (split; [intros userId; split; intros H;
             (discriminate H || reflexivity) |]);
    intros c userId Hc Howner; [| discriminate].
  inversion Hc; subst c; rewrite Howner; reflexivity.
Qed.

(** ** [FollowingEntityService]: [pack] and [packMany] *)

Lemma promiseAll_Forall2 :
  forall (A : Type) (rs : list (Result A)) (l : list A),
    promiseAll rs = Ok l -> Forall2 (fun r a => r = Ok a) rs l.
Proof.
  intros A rs; induction rs as [| r rs IH]; simpl; intros l H.
  - inversion H; constructor.
  - destruct r as [a | e]; simpl in H; [| discriminate].
    destruct (promiseAll rs) as [l' | e]; simpl in H; [| discriminate].
    inversion H; subst l; constructor; [reflexivity | apply IH; reflexivity].
Qed.

Lemma Forall2_map_left :
  forall (A B C : Type) (R : B -> C -> Prop) (g : A -> B) (l : list A)
         (l' : list C),
    Forall2 R (map g l) l' -> Forall2 (fun a c => R (g a) c) l l'.
Proof.
  intros A B C R g l; induction l as [| a l IH]; simpl; intros l' H;
    inversion H; subst; constructor; auto.
Qed.

(** X28: when [packMany] returns, it returns one packed object per element,
    in the order of its argument, each the result of [pack] on the element
    at the same position. *)
Theorem packMany_elementwise :
  forall (PackedUser : Type)
         (packUser : User.t + Id -> option Id -> bool -> Result PackedUser)
         followings me opts packed,
    FollowingEntityService.packMany PackedUser packUser followings me opts = Ok packed ->
    length packed = length followings
    /\ Forall2
         (fun x p => FollowingEntityService.pack PackedUser packUser x me opts = Ok p)
         followings packed.
Proof.
  intros PackedUser packUser followings me opts packed H.
  unfold FollowingEntityService.packMany in H.
  apply promiseAll_Forall2, Forall2_map_left in H.
  split; [symmetry; apply (Forall2_length H) | exact H].
Qed.

Lemma packMany_elementwise_witness :
  length [FollowingEntityService.plain unit Fixture.following1;
          FollowingEntityService.plain unit Fixture.following2]
  = length [FollowingEntityService.Loaded Fixture.following1;
            FollowingEntityService.Loaded Fixture.following2]
  /\ Forall2
       (fun x p =>
          FollowingEntityService.pack unit Fixture.failingPack x None None = Ok p)
       [FollowingEntityService.Loaded Fixture.following1;
        FollowingEntityService.Loaded Fixture.following2]
       [FollowingEntityService.plain unit Fixture.following1;
        FollowingEntityService.plain unit Fixture.following2].
Proof.
  apply (packMany_elementwise unit Fixture.failingPack
           [FollowingEntityService.Loaded Fixture.following1;
            FollowingEntityService.Loaded Fixture.following2] None None).
  reflexivity.
Defined.

Lemma promiseAll_throws :
  forall (A : Type) (rs : list (Result A)) (e : Error),
    In (Throw e) rs -> exists e', promiseAll rs = Throw e'.
Proof.
  intros A rs e; induction rs as [| r rs IH]; simpl; intros Hin;
    [contradiction |].
  destruct r as [a | e0]; simpl; [| eexists; reflexivity].
  destruct Hin as [Heq | Hin]; [discriminate |].
  destruct (IH Hin) as [e' ->]; eexists; reflexivity.
Qed.

(** X29: [pack] handed an id instead of an entity object always throws a
    TypeError, since line 75 reads [findOneByOrFail] off
    [this.followingsRepository] and the class declares
    [channelFollowingsRepository]; and [packMany] throws whenever one
    element of its list is an id, whatever the other elements are. *)
Theorem pack_by_id_throws :
  forall (PackedUser : Type)
         (packUser : User.t + Id -> option Id -> bool -> Result PackedUser)
         id me opts,
    FollowingEntityService.pack PackedUser packUser (FollowingEntityService.ById id)
      me opts = Throw (TypeError "findOneByOrFail")
    /\ (forall followings,
          In (FollowingEntityService.ById id) followings ->
          exists e,
            FollowingEntityService.packMany PackedUser packUser followings me opts
            = Throw e).
Proof.
  intros PackedUser packUser id me opts; split; [reflexivity |].
  intros followings Hin; unfold FollowingEntityService.packMany.
  apply (promiseAll_throws _ _ (TypeError "findOneByOrFail")).
  apply in_map_iff; exists (FollowingEntityService.ById id).
  split; [reflexivity | exact Hin].
Qed.

(** X30: without populate flags (no options, or both flags off) [packMany]
    on entity objects never calls [userEntityService.pack] and cannot fail:
    whatever that service would answer, the result is the list of the
    objects' [id], [followeeId] and [followerId], in order, with neither
    relation populated. *)
Theorem packMany_plain :
  forall (PackedUser : Type)
         (packUser : User.t + Id -> option Id -> bool -> Result PackedUser)
         (followings : list FollowingEntityService.Following) me opts,
    opts = None \/ opts = Some (FollowingEntityService.mkOpts false false) ->
    FollowingEntityService.packMany PackedUser packUser
      (map FollowingEntityService.Loaded followings) me opts
    = Ok (map (FollowingEntityService.plain PackedUser) followings).
Proof.
  intros PackedUser packUser followings me opts Hopts.
  unfold FollowingEntityService.packMany.
  induction followings as [| f followings IH]; simpl; [reflexivity |].
  rewrite IH; destruct Hopts as [-> | ->]; reflexivity.
Qed.

Lemma packMany_plain_witness :
  FollowingEntityService.packMany unit Fixture.failingPack
    (map FollowingEntityService.Loaded
       [Fixture.following1; Fixture.following2]) (Some "alice") None
  = Ok (map (FollowingEntityService.plain unit)
          [Fixture.following1; Fixture.following2]).
Proof.
  apply (packMany_plain unit Fixture.failingPack
           [Fixture.following1; Fixture.following2] (Some "alice") None).
  left; reflexivity.
Defined.
